(** * telegraf-eredes: the E-Redes input plugin

    A shallow embedding of [eredes/eredes.go] and of the parts of the Go
    standard library it calls into ([time], [strings], [net/http]),
    followed by the properties of the request window, of the sign-in and
    usage requests and of the collection cycle. *)

From Stdlib Require Import ZArith List Bool Lia Ascii String.
From Stdlib Require Import Numbers.DecimalString.
Import ListNotations.

Open Scope string_scope.
Open Scope Z_scope.

(* ================================================================== *)
(** ** Package [time] *)
(* ================================================================== *)

(** Go's [time.Time] is an instant together with a [*Location].  The
    model keeps the instant as nanoseconds since the Unix epoch, and a
    location as its zone lookup, so that a location such as the local
    one, whose offset changes over the year, is a location like any
    other.  [Date] resolves the zone as Go 1.15 does.  Go keeps the
    fields in 64-bit integers; here they are unbounded. *)
Module time.

Definition Duration := Z.

Definition Nanosecond : Duration := 1.
Definition Microsecond : Duration := 1000 * Nanosecond.
Definition Millisecond : Duration := 1000 * Microsecond.
Definition Second : Duration := 1000 * Millisecond.
Definition Minute : Duration := 60 * Second.
Definition Hour : Duration := 60 * Minute.

(** [*Location], through [l.lookup(sec)]: the zone in use at the instant
    [sec] (in Unix seconds), as its offset in seconds east of UTC and
    the instants at which that zone begins and ends. *)
Record Location := mkLocation { lookup : Z -> Z * Z * Z }.

Definition alpha : Z := - 2 ^ 63.
Definition omega : Z := 2 ^ 63 - 1.

(** [time.FixedZone(name, offset)] and [time.UTC]. *)
Definition FixedZone (offset : Z) : Location :=
  mkLocation (fun _ => (offset, alpha, omega)).

Definition UTC : Location := FixedZone 0.

(** The offset in use at the instant [sec]. *)
Definition offsetAt (l : Location) (sec : Z) : Z :=
  let '(offset, _, _) := lookup l sec in offset.

Record Time := mkTime { unixNano : Z; loc : Location }.

(** [t.Unix()] and [t.Nanosecond()]. *)
Definition Unix (t : Time) : Z := unixNano t / 1000000000.
Definition Nanosecond_ (t : Time) : Z := unixNano t mod 1000000000.

Definition secondsPerMinute := 60.
Definition secondsPerHour := 60 * secondsPerMinute.
Definition secondsPerDay := 24 * secondsPerHour.
Definition daysPer400Years := 365 * 400 + 97.
Definition daysPer100Years := 365 * 100 + 24.
Definition daysPer4Years := 365 * 4 + 1.

(** Seconds from January 1 of year 1 to the Unix epoch. *)
Definition unixToInternal :=
  (1969 * 365 + 1969 / 4 - 1969 / 100 + 1969 / 400) * secondsPerDay.

(** [t.Add(d)]. *)
Definition Add (t : Time) (d : Duration) : Time :=
  mkTime (unixNano t + d) (loc t).

(** [t.abs()]: seconds since January 1 of year 1, on the wall clock of
    the time's location. *)
Definition abs (t : Time) : Z :=
  Unix t + offsetAt (loc t) (Unix t) + unixToInternal.

(** The day number of the wall-clock date, counted from January 1 of
    year 1. *)
Definition absDay (t : Time) : Z := abs t / secondsPerDay.

Definition isLeap (year : Z) : bool :=
  (year mod 4 =? 0) && (negb (year mod 100 =? 0) || (year mod 400 =? 0)).

(** [daysBefore[m]] counts the days in a non-leap year before month
    [m+1]. *)
Definition daysBefore (m : Z) : Z :=
  nth (Z.to_nat m)
      [0; 31; 59; 90; 120; 151; 181; 212; 243; 273; 304; 334; 365] 0.

(** [absDate], on the day number: year, month (January is 1), day of
    the month and day of the year (January 1 is 0). *)
Definition dateOfDay (days : Z) : Z * Z * Z * Z :=
  let d := days in
  (* 400-year cycles *)
  let n := d / daysPer400Years in
  let y := 400 * n in
  let d := d - daysPer400Years * n in
  (* 100-year cycles: the last day of the fourth one is day 36524 *)
  let n := d / daysPer100Years in
  let n := n - Z.shiftr n 2 in
  let y := y + 100 * n in
  let d := d - daysPer100Years * n in
  (* 4-year cycles *)
  let n := d / daysPer4Years in
  let y := y + 4 * n in
  let d := d - daysPer4Years * n in
  (* years within a 4-year cycle *)
  let n := d / 365 in
  let n := n - Z.shiftr n 2 in
  let y := y + n in
  let d := d - 365 * n in
  let year := y + 1 in
  let yday := d in
  let day := yday in
  if isLeap year && (day =? 31 + 29 - 1) then (year, 2, 29, yday)
  else
    let day := if isLeap year && (day >? 31 + 29 - 1) then day - 1 else day in
    (* estimate the month as if every month had 31 days *)
    let month := day / 31 in
    let end_ := daysBefore (month + 1) in
    let '(month, begin) :=
      if day >=? end_ then (month + 1, end_) else (month, daysBefore month) in
    (year, month + 1, day - begin + 1, yday).

Definition Year (t : Time) : Z :=
  let '(year, _, _, _) := dateOfDay (absDay t) in year.
Definition Month (t : Time) : Z :=
  let '(_, month, _, _) := dateOfDay (absDay t) in month.
Definition Day (t : Time) : Z :=
  let '(_, _, day, _) := dateOfDay (absDay t) in day.

(** [t.Hour()], [t.Minute()] and [t.Second()]; like [Nanosecond_]
    they carry an underscore, the plain names being those of the
    duration constants. *)
Definition Hour_ (t : Time) : Z := (abs t mod secondsPerDay) / secondsPerHour.
Definition Minute_ (t : Time) : Z := (abs t mod secondsPerHour) / secondsPerMinute.
Definition Second_ (t : Time) : Z := abs t mod secondsPerMinute.

(** [norm(hi, lo, base)]: carry [lo] into [hi] so that
    [0 <= lo < base]. *)
Definition norm (hi lo base : Z) : Z * Z :=
  let '(hi, lo) :=
    if lo <? 0 then
      let n := (- lo - 1) / base + 1 in (hi - n, lo + n * base)
    else (hi, lo) in
  if lo >=? base then
    let n := lo / base in (hi + n, lo - n * base)
  else (hi, lo).

(** [daysSinceEpoch(year)]: days from January 1 of year 1 to January 1
    of [year]. *)
Definition daysSinceEpoch (year : Z) : Z :=
  let y := year - 1 in
  let n := y / 400 in
  let y := y - 400 * n in
  let d := daysPer400Years * n in
  let n := y / 100 in
  let y := y - 100 * n in
  let d := d + daysPer100Years * n in
  let n := y / 4 in
  let y := y - 4 * n in
  let d := d + daysPer4Years * n in
  d + 365 * y.

(** The zone adjustment at the end of [Date]: [unix] is a wall clock
    read as if it were UTC; the zone found there gives a first offset,
    replaced by the offset of the zone before or after when the
    adjusted instant falls outside the zone found. *)
Definition toUTC (l : Location) (unix : Z) : Z :=
  let '(offset, start, end_) := lookup l unix in
  if negb (offset =? 0) then
    let utc := unix - offset in
    let offset :=
      if utc <? start then offsetAt l (start - 1)
      else if utc >=? end_ then offsetAt l end_
      else offset in
    unix - offset
  else unix.

(** [time.Date(year, month, day, hour, min, sec, nsec, loc)]. *)
Definition Date (year month day hour min sec nsec : Z) (loc : Location)
  : Time :=
  let m := month - 1 in
  let '(year, m) := norm year m 12 in
  let month := m + 1 in
  let '(sec, nsec) := norm sec nsec 1000000000 in
  let '(min, sec) := norm min sec 60 in
  let '(hour, min) := norm hour min 60 in
  let '(day, hour) := norm day hour 24 in
  let d := daysSinceEpoch year in
  let d := d + daysBefore (month - 1) in
  let d := if isLeap year && (month >=? 3) then d + 1 else d in
  let d := d + (day - 1) in
  let abs := d * secondsPerDay in
  let abs := abs + (hour * secondsPerHour + min * secondsPerMinute + sec) in
  let unix := abs - unixToInternal in
  mkTime (toUTC loc unix * 1000000000 + nsec) loc.

(** [appendInt]: the decimal form of [x], zero-padded to [width]
    digits, after a minus sign when [x] is negative. *)
Definition digits (u : Z) : string :=
  NilZero.string_of_uint (N.to_uint (Z.to_N u)).

Fixpoint zeros (n : nat) : string :=
  match n with
  | O => ""
  | S n => String "0" (zeros n)
  end.

Definition appendInt (x : Z) (width : nat) : string :=
  let ds := digits (Z.abs x) in
  (if x <? 0 then "-" else "")
    ++ zeros (width - String.length ds) ++ ds.

(** [t.Format("2006-01-02 15:04:05")], the only layout the plugin
    uses. *)
Definition layoutDateTime := "2006-01-02 15:04:05".

Definition formatDateTime (year month day hour min sec : Z) : string :=
  appendInt year 4 ++ "-" ++ appendInt month 2 ++ "-" ++ appendInt day 2
    ++ " " ++ appendInt hour 2 ++ ":" ++ appendInt min 2
    ++ ":" ++ appendInt sec 2.

Definition Format (t : Time) : string :=
  formatDateTime (Year t) (Month t) (Day t) (Hour_ t) (Minute_ t) (Second_ t).

End time.

(* ================================================================== *)
(** ** Errors, package [strings], package [fmt] *)
(* ================================================================== *)

(** A Go [error] is modelled by the text of its [Error()] method; a
    function returning [(T, error)] gives a [result T]. *)
Definition error := string.

Inductive result (A : Type) : Type :=
| Ok (a : A)
| Err (e : error).
Arguments Ok {A} a.
Arguments Err {A} e.

Module strings.

Definition lowerByte (c : ascii) : ascii :=
  let n := N_of_ascii c in
  if ((65 <=? n) && (n <=? 90))%N then ascii_of_N (n + 32) else c.

Definition upperByte (c : ascii) : ascii :=
  let n := N_of_ascii c in
  if ((97 <=? n) && (n <=? 122))%N then ascii_of_N (n - 32) else c.

(** [strings.ToLower] on the ASCII letters.  The plugin only compares
    the result with ["host"], and no letter outside ASCII lower-cases
    to one of [h], [o], [s], [t]. *)
Fixpoint ToLower (s : string) : string :=
  match s with
  | EmptyString => EmptyString
  | String c r => String (lowerByte c) (ToLower r)
  end.

Fixpoint inCutset (c : ascii) (cutset : string) : bool :=
  match cutset with
  | EmptyString => false
  | String k r => Ascii.eqb c k || inCutset c r
  end.

Fixpoint TrimLeft (s cutset : string) : string :=
  match s with
  | EmptyString => EmptyString
  | String c r => if inCutset c cutset then TrimLeft r cutset else s
  end.

Fixpoint TrimRight (s cutset : string) : string :=
  match s with
  | EmptyString => EmptyString
  | String c r =>
      match TrimRight r cutset with
      | EmptyString => if inCutset c cutset then EmptyString
                       else String c EmptyString
      | r' => String c r'
      end
  end.

(** [strings.Trim(s, cutset)] for a cutset of ASCII bytes. *)
Definition Trim (s cutset : string) : string :=
  TrimRight (TrimLeft s cutset) cutset.

End strings.

Module fmt.

(** The verb [%d] on an [int]. *)
Definition d (x : Z) : string := time.appendInt x 0.

(** The verb [%v] on an [[]int]: the elements in brackets, separated
    by spaces. *)
Fixpoint spaced (l : list Z) : string :=
  match l with
  | [] => ""
  | [x] => d x
  | x :: r => d x ++ " " ++ spaced r
  end.

Definition v_ints (l : list Z) : string := "[" ++ spaced l ++ "]".

End fmt.

(* ================================================================== *)
(** ** Package [tls] of Telegraf *)
(* ================================================================== *)

Module tls.

(** [tls.ClientConfig] of Telegraf's [plugins/common/tls]. *)
Record ClientConfig := mkClientConfig {
  TLSCA : string;
  TLSCert : string;
  TLSKey : string;
  InsecureSkipVerify : bool
}.

(** The [*tls.Config] of [crypto/tls] that [TLSConfig()] builds, known
    here by the settings it was built from. *)
Record Config := mkConfig { settings : ClientConfig }.

End tls.

(* ================================================================== *)
(** ** Package [net/http] *)
(* ================================================================== *)

Module http.

(** [http.Header]: canonical key to the values added under it, in the
    order the keys were first used. *)
Definition Header := list (string * list string).

Definition isTokenByte (c : ascii) : bool :=
  let n := N_of_ascii c in
  ((48 <=? n) && (n <=? 57))%N || ((65 <=? n) && (n <=? 90))%N
  || ((97 <=? n) && (n <=? 122))%N
  || strings.inCutset c "!#$%&'*+-.^_`|~".

Fixpoint allToken (s : string) : bool :=
  match s with
  | EmptyString => true
  | String c r => isTokenByte c && allToken r
  end.

Fixpoint canonical (upper : bool) (s : string) : string :=
  match s with
  | EmptyString => EmptyString
  | String c r =>
      let c := if upper then strings.upperByte c else strings.lowerByte c in
      String c (canonical (Ascii.eqb c "-") r)
  end.

(** [textproto.CanonicalMIMEHeaderKey]: a key made of token bytes gets
    an upper-case letter first and after every dash and lower-case
    letters elsewhere; any other key is left as it is. *)
Definition CanonicalMIMEHeaderKey (s : string) : string :=
  if allToken s then canonical true s else s.

Fixpoint addValue (key value : string) (h : Header) : Header :=
  match h with
  | [] => [(key, [value])]
  | (k, vs) :: r =>
      if String.eqb k key then (k, (vs ++ [value])%list) :: r
      else (k, vs) :: addValue key value r
  end.

Fixpoint setValue (key value : string) (h : Header) : Header :=
  match h with
  | [] => [(key, [value])]
  | (k, vs) :: r =>
      if String.eqb k key then (k, [value]) :: r
      else (k, vs) :: setValue key value r
  end.

Definition Header_Add (h : Header) (key value : string) : Header :=
  addValue (CanonicalMIMEHeaderKey key) value h.

Definition Header_Set (h : Header) (key value : string) : Header :=
  setValue (CanonicalMIMEHeaderKey key) value h.

(** The fields of [http.Request] the plugin fills in.  [URL] keeps the
    string the request was built from. *)
Record Request := mkRequest {
  Method : string;
  URL : string;
  Host : string;
  Header_ : Header;
  Body : string
}.

Definition withHost (r : Request) (host : string) : Request :=
  mkRequest (Method r) (URL r) host (Header_ r) (Body r).

Definition withHeader (r : Request) (h : Header) : Request :=
  mkRequest (Method r) (URL r) (Host r) h (Body r).

(** What the plugin looks at in an [http.Response]: the status code,
    and what reading the body to its end gives. *)
Record Response := mkResponse {
  StatusCode : Z;
  ReadAll : result string
}.

(** [http.Client], as [Init] builds it: a transport with the TLS
    settings it was given, and a timeout. *)
Record Client := mkClient {
  Transport : tls.Config;
  Timeout : time.Duration
}.

Definition StatusText (code : Z) : string :=
  match code with
  | 100 => "Continue"
  | 101 => "Switching Protocols"
  | 102 => "Processing"
  | 103 => "Early Hints"
  | 200 => "OK"
  | 201 => "Created"
  | 202 => "Accepted"
  | 203 => "Non-Authoritative Information"
  | 204 => "No Content"
  | 205 => "Reset Content"
  | 206 => "Partial Content"
  | 207 => "Multi-Status"
  | 208 => "Already Reported"
  | 226 => "IM Used"
  | 300 => "Multiple Choices"
  | 301 => "Moved Permanently"
  | 302 => "Found"
  | 303 => "See Other"
  | 304 => "Not Modified"
  | 305 => "Use Proxy"
  | 307 => "Temporary Redirect"
  | 308 => "Permanent Redirect"
  | 400 => "Bad Request"
  | 401 => "Unauthorized"
  | 402 => "Payment Required"
  | 403 => "Forbidden"
  | 404 => "Not Found"
  | 405 => "Method Not Allowed"
  | 406 => "Not Acceptable"
  | 407 => "Proxy Authentication Required"
  | 408 => "Request Timeout"
  | 409 => "Conflict"
  | 410 => "Gone"
  | 411 => "Length Required"
  | 412 => "Precondition Failed"
  | 413 => "Request Entity Too Large"
  | 414 => "Request URI Too Long"
  | 415 => "Unsupported Media Type"
  | 416 => "Requested Range Not Satisfiable"
  | 417 => "Expectation Failed"
  | 418 => "I'm a teapot"
  | 421 => "Misdirected Request"
  | 422 => "Unprocessable Entity"
  | 423 => "Locked"
  | 424 => "Failed Dependency"
  | 425 => "Too Early"
  | 426 => "Upgrade Required"
  | 428 => "Precondition Required"
  | 429 => "Too Many Requests"
  | 431 => "Request Header Fields Too Large"
  | 451 => "Unavailable For Legal Reasons"
  | 500 => "Internal Server Error"
  | 501 => "Not Implemented"
  | 502 => "Bad Gateway"
  | 503 => "Service Unavailable"
  | 504 => "Gateway Timeout"
  | 505 => "HTTP Version Not Supported"
  | 506 => "Variant Also Negotiates"
  | 507 => "Insufficient Storage"
  | 508 => "Loop Detected"
  | 510 => "Not Extended"
  | 511 => "Network Authentication Required"
  | _ => ""
  end.

(** The values stored under a key, and [h.Values(key)]. *)
Fixpoint lookupValues (key : string) (h : Header) : list string :=
  match h with
  | [] => []
  | (k, vs) :: r => if String.eqb k key then vs else lookupValues key r
  end.

Definition Header_Values (h : Header) (key : string) : list string :=
  lookupValues (CanonicalMIMEHeaderKey key) h.

End http.

(* ================================================================== *)
(** ** Packages [gjson] and [telegraf] *)
(* ================================================================== *)

Module gjson.

Inductive Type_ := Null | False | Number | String_ | True | JSON.

(** [gjson.Result].  [Num] is a float in Go; only its rendering by
    [String()] is ever used, so the model carries that text. *)
Record Result := mkResult {
  Type__ : Type_;
  Raw : string;
  Str : string;
  NumText : string
}.

(** The zero [Result], which [gjson.Get] returns for a path that the
    document does not have. *)
Definition missing : Result := mkResult Null "" "" "".

(** [t.Exists()]. *)
Definition Exists (t : Result) : bool :=
  match Type__ t with
  | Null => negb (String.eqb (Raw t) "")
  | _ => true
  end.

(** [t.String()]. *)
Definition Result_String (t : Result) : string :=
  match Type__ t with
  | Null => ""
  | False => "false"
  | Number => NumText t
  | String_ => Str t
  | JSON => Raw t
  | True => "true"
  end.

End gjson.

Module telegraf.

(** A field value of a metric ([interface{}] in Go). *)
Inductive FieldValue :=
| FString (s : string)
| FInt (i : Z)
| FBool (b : bool)
| FFloat (text : string).

(** [telegraf.Metric], through its four accessors. *)
Record Metric := mkMetric {
  Name : string;
  Fields : list (string * FieldValue);
  Tags : list (string * string);
  Time : time.Time
}.

(** [telegraf.Accumulator] is an interface of the host; the model keeps
    the calls made on it, oldest first. *)
Inductive AccCall :=
| AddFields (name : string) (fields : list (string * FieldValue))
            (tags : list (string * string)) (t : time.Time)
| AddError (err : error).

Definition isAddFields (c : AccCall) : bool :=
  match c with
  | AddFields _ _ _ _ => true
  | AddError _ => false
  end.

End telegraf.

(* ================================================================== *)
(** ** The world around the plugin *)
(* ================================================================== *)

(** What the plugin cannot decide by itself: the wall clock, the file
    system behind the TLS settings, URL parsing, the network and the
    JSON library.  [Do] sees the requests sent before the one it
    answers, so a server may answer the same request differently over
    time. *)
Record Env := mkEnv {
  Now : nat -> time.Time;
  TLSConfig : tls.ClientConfig -> result tls.Config;
  url_Parse : string -> result string;
  Do : http.Client -> list http.Request -> http.Request -> result http.Response;
  gjson_Get : string -> string -> gjson.Result
}.

(** The state a collection cycle acts on: the requests put on the wire,
    the number of clock readings taken, and the calls made on the
    accumulator.  Log lines are not modelled. *)
Record World := mkWorld {
  sent : list http.Request;
  clockReads : nat;
  acc : list telegraf.AccCall
}.

(** A computation either returns or panics (a nil dereference), and
    leaves a world behind in both cases. *)
Inductive outcome (A : Type) : Type :=
| Returns (a : A)
| Panics.
Arguments Returns {A} a.
Arguments Panics {A}.

Definition M (A : Type) : Type := World -> outcome A * World.

Definition ret {A} (a : A) : M A := fun w => (Returns a, w).

Definition bind {A B} (m : M A) (k : A -> M B) : M B :=
  fun w =>
    match m w with
    | (Returns a, w') => k a w'
    | (Panics, w') => (Panics, w')
    end.

Declare Scope go_scope.
Delimit Scope go_scope with go.
Notation "x <- m ;; k" := (bind m (fun x => k))
  (at level 100, m at next level, right associativity) : go_scope.
Notation "m ;;; k" := (bind m (fun _ => k))
  (at level 100, right associativity) : go_scope.

(** [time.Now()]. *)
Definition time_Now (env : Env) : M time.Time :=
  fun w => (Returns (Now env (clockReads w)),
            mkWorld (sent w) (S (clockReads w)) (acc w)).

(** [client.Do(request)], on a client that may be nil. *)
Definition client_Do (env : Env) (client : option http.Client)
    (request : http.Request) : M (result http.Response) :=
  fun w =>
    match client with
    | None => (Panics, w)
    | Some c =>
        (Returns (Do env c (sent w) request),
         mkWorld (sent w ++ [request])%list (clockReads w) (acc w))
    end.

(** [acc.AddFields(...)] and [acc.AddError(err)]. *)
Definition acc_call (c : telegraf.AccCall) : M unit :=
  fun w => (Returns tt, mkWorld (sent w) (clockReads w) (acc w ++ [c])%list).

(** [http.NewRequest(method, url, body)]; the request's host is the one
    of the parsed URL. *)
Definition http_NewRequest (env : Env) (method url body : string)
    : result http.Request :=
  match url_Parse env url with
  | Err e => Err e
  | Ok host => Ok (http.mkRequest method url host [] body)
  end.

(* ================================================================== *)
(** ** Package [eredes] *)
(* ================================================================== *)

Open Scope go_scope.

Definition Parser := string -> result (list telegraf.Metric).

(** The [EREDES] struct.  [client] and [parser] are nil until [Init] and
    [SetParser] have run.  [Headers] lists the map's entries in the
    order the [range] loop visits them. *)
Record EREDES := mkEREDES {
  Headers : list (string * string);
  SignInURL : string;
  UsageURL : string;
  Username : string;
  Password : string;
  Cpe : string;
  ClientConfig : tls.ClientConfig;
  SuccessStatusCodes : list Z;
  Timeout : time.Duration;
  HistoryInterval : time.Duration;
  StartDate : string;
  RunTestsOnly : bool;
  client : option http.Client;
  parser : option Parser
}.

Definition eredesSignIn :=
  "https://online.e-redes.pt/listeners/api.php/ms/auth/auth/signin".
Definition eredesUsage :=
  "https://online.e-redes.pt/listeners/api.php/ms/reading/data-usage/sysgrid/get".

(** The double quote, for the JSON bodies. *)
Definition q : string := String (ascii_of_N 34) EmptyString.

(** [Init]: the updated plugin and the error returned. *)
Definition Init (env : Env) (eredes : EREDES) : EREDES * option error :=
  match TLSConfig env (ClientConfig eredes) with
  | Err err => (eredes, Some err)
  | Ok tlsCfg =>
      (mkEREDES (Headers eredes) (SignInURL eredes) (UsageURL eredes)
         (Username eredes) (Password eredes) (Cpe eredes)
         (ClientConfig eredes)
         [200]
         (Timeout eredes) (HistoryInterval eredes) (StartDate eredes)
         (RunTestsOnly eredes)
         (Some (http.mkClient tlsCfg (Timeout eredes)))
         (parser eredes),
       None)
  end.

(** [SetParser]. *)
Definition SetParser (eredes : EREDES) (p : Parser) : EREDES :=
  mkEREDES (Headers eredes) (SignInURL eredes) (UsageURL eredes)
    (Username eredes) (Password eredes) (Cpe eredes) (ClientConfig eredes)
    (SuccessStatusCodes eredes) (Timeout eredes) (HistoryInterval eredes)
    (StartDate eredes) (RunTestsOnly eredes) (client eredes) (Some p).

(** The loop over [eredes.Headers] in [makeRequest]. *)
Fixpoint applyHeaders (headers : list (string * string))
    (request : http.Request) : http.Request :=
  match headers with
  | [] => request
  | (k, v) :: rest =>
      applyHeaders rest
        (if (strings.ToLower k =? "host")%string
         then http.withHost request v
         else http.withHeader request
                (http.Header_Add (http.Header_ request) k v))
  end.

(** The loop over [eredes.SuccessStatusCodes] in [makeRequest]. *)
Fixpoint responseHasSuccessCode (statusCode : Z) (codes : list Z) : bool :=
  match codes with
  | [] => false
  | c :: rest =>
      if statusCode =? c then true else responseHasSuccessCode statusCode rest
  end.

Definition userAgent :=
  "Mozilla/5.0 (Macintosh; Intel Mac OS X 10_13_6) AppleWebKit/605.1.15 (KHTML, like Gecko) Version/13.1.2 Safari/605.1.15".

(** The request [makeRequest] hands to the client. *)
Definition buildRequest (eredes : EREDES) (request : http.Request)
    (token : string) : http.Request :=
  let request := applyHeaders (Headers eredes) request in
  let request :=
    if negb (token =? "")%string then
      let bearer := "Bearer " ++ strings.Trim token (String (ascii_of_N 10) "") in
      http.withHeader request
        (http.Header_Set (http.Header_ request) "Authorization" bearer)
    else request in
  let request :=
    http.withHeader request
      (http.Header_Set (http.Header_ request) "Content-Type" "application/json") in
  http.withHeader request
    (http.Header_Set (http.Header_ request) "User-Agent" userAgent).

(** The error [makeRequest] builds for a status code outside the
    success codes. *)
Definition statusError (statusCode : Z) (codes : list Z) : error :=
  "received status code " ++ fmt.d statusCode
    ++ " (" ++ http.StatusText statusCode
    ++ "), expected any value out of " ++ fmt.v_ints codes.

(** [makeRequest].  [makeRequestBodyReader] cannot fail, so its error
    branch is left out. *)
Definition makeRequest (env : Env) (eredes : EREDES)
    (url requestBody token : string) : M (result string) :=
  match http_NewRequest env "POST" url requestBody with
  | Err err => ret (Err err)
  | Ok request =>
      let request := buildRequest eredes request token in
      r <- client_Do env (client eredes) request ;;
      match r with
      | Err err => ret (Err err)
      | Ok resp =>
          if negb (responseHasSuccessCode (http.StatusCode resp)
                     (SuccessStatusCodes eredes))
          then
            ret (Err (statusError (http.StatusCode resp)
                        (SuccessStatusCodes eredes)))
          else
            match http.ReadAll resp with
            | Err err => ret (Err err)
            | Ok b => ret (Ok b)
            end
      end
  end.

(** The body of the sign-in request. *)
Definition signInBody (password username : string) : string :=
  "{" ++ q ++ "password" ++ q ++ ": " ++ q ++ password
      ++ q ++ ", " ++ q ++ "username" ++ q ++ ": " ++ q ++ username
      ++ q ++ "}".

(** [signIn]. *)
Definition signIn (env : Env) (eredes : EREDES) : M (result string) :=
  if RunTestsOnly eredes then ret (Ok "TOKEN1234567890")
  else
    let signInURL := SignInURL eredes in
    let signInURL :=
      if (signInURL =? "")%string then eredesSignIn else signInURL in
    let signInRequestBody :=
      signInBody (Password eredes) (Username eredes) in
    r <- makeRequest env eredes signInURL signInRequestBody "" ;;
    match r with
    | Err err => ret (Err err)
    | Ok response =>
        let token := gjson_Get env response "Body.Result.token" in
        ret (Ok (gjson.Result_String token))
    end.

Definition twentyFourHours : time.Duration := 24 * time.Hour.

(** The Window Calculator, first half: [start], from the configured
    start date, the history interval and the first clock reading of
    [gatherUsages]. *)
Definition windowStart (StartDate : string) (historyInterval : time.Duration)
    (now : time.Time) : string :=
  let startDate := now in
  if (StartDate =? "")%string then
    let startDate :=
      if (historyInterval =? 0) || (historyInterval <? twentyFourHours) then
        let startDate := time.Add startDate (- twentyFourHours) in
        time.Date (time.Year startDate) (time.Month startDate)
          (time.Day startDate) 23 59 59 0 (time.loc startDate)
      else
        let startDate :=
          time.Add (time.Add startDate (- historyInterval))
            (- twentyFourHours) in
        time.Date (time.Year startDate) (time.Month startDate)
          (time.Day startDate) 23 59 59 0 (time.loc startDate) in
    time.Format startDate
  else StartDate.

(** The instant [endDate] of [gatherUsages], from its second clock
    reading. *)
Definition windowEndDate (now : time.Time) : time.Time :=
  let endDate := time.Add now (- twentyFourHours) in
  time.Date (time.Year endDate) (time.Month endDate) (time.Day endDate)
    23 59 59 59 (time.loc endDate).

(** The Window Calculator, second half: [end]. *)
Definition windowEnd (now : time.Time) : string :=
  time.Format (windowEndDate now).

(** The Window Calculator on one value of [now] for both readings. *)
Definition window (StartDate : string) (historyInterval : time.Duration)
    (now : time.Time) : string * string :=
  (windowStart StartDate historyInterval now, windowEnd now).

(** The body of the usage request. *)
Definition usagesBody (cpe start end_ : string) : string :=
  "{" ++ q ++ "cpe" ++ q ++ ": " ++ q ++ cpe
      ++ q ++ ", " ++ q ++ "request_type" ++ q ++ ":" ++ q ++ "3" ++ q
      ++ "," ++ q ++ "start_date" ++ q ++ ":" ++ q ++ start
      ++ q ++ "," ++ q ++ "end_date" ++ q ++ ":" ++ q ++ end_
      ++ q ++ "," ++ q ++ "wait" ++ q ++ ":true," ++ q ++ "formatted" ++ q
      ++ ":false}".

(** [eredes.parser.Parse(response)], on a parser that may be nil. *)
Definition parser_Parse (eredes : EREDES) (response : string)
    : M (result (list telegraf.Metric)) :=
  fun w =>
    match parser eredes with
    | None => (Panics, w)
    | Some p => (Returns (p response), w)
    end.

(** The call [acc.AddFields(metric.Name(), metric.Fields(),
    metric.Tags(), metric.Time())]. *)
Definition addFieldsOf (metric : telegraf.Metric) : telegraf.AccCall :=
  telegraf.AddFields (telegraf.Name metric) (telegraf.Fields metric)
    (telegraf.Tags metric) (telegraf.Time metric).

(** The loop over the parsed metrics. *)
Fixpoint addMetrics (metrics : list telegraf.Metric) : M unit :=
  match metrics with
  | [] => ret tt
  | metric :: rest =>
      acc_call (addFieldsOf metric) ;;;
      addMetrics rest
  end.

(** [gatherUsages]. *)
Definition gatherUsages (env : Env) (eredes : EREDES) (token : string)
    : M (option error) :=
  let historyInterval := HistoryInterval eredes in
  startDate <- time_Now env ;;
  let start := windowStart (StartDate eredes) historyInterval startDate in
  now <- time_Now env ;;
  let end_ := windowEnd now in
  let usagesRequestBody := usagesBody (Cpe eredes) start end_ in
  let usageURL := UsageURL eredes in
  let usageURL := if (usageURL =? "")%string then eredesUsage else usageURL in
  if negb (RunTestsOnly eredes) then
    r <- makeRequest env eredes eredesUsage usagesRequestBody token ;;
    match r with
    | Err err => ret (Some err)
    | Ok response =>
        p <- parser_Parse eredes response ;;
        match p with
        | Err err => ret (Some err)
        | Ok metrics =>
            (if (0 <? List.length metrics)%nat then addMetrics metrics
             else ret tt) ;;;
            ret None
        end
    end
  else ret None.

(** [Gather]. *)
Definition Gather (env : Env) (eredes : EREDES) : M (option error) :=
  r <- signIn env eredes ;;
  match r with
  | Err err =>
      acc_call (telegraf.AddError ("[signIn]: " ++ err)) ;;;
      ret None
  | Ok token =>
      if negb (token =? "")%string then
        err <- gatherUsages env eredes token ;;
        match err with
        | Some err =>
            acc_call (telegraf.AddError ("Error in : " ++ err)) ;;;
            ret None
        | None => ret None
        end
      else ret None
  end.


(* ================================================================== *)
(** ** Names for what the properties talk about *)
(* ================================================================== *)

(** The URL [signIn] posts to, and the request it hands to the client
    once the URL has parsed to [host]. *)
Definition signInURLOf (eredes : EREDES) : string :=
  if (SignInURL eredes =? "")%string then eredesSignIn else SignInURL eredes.

Definition signInRequest (eredes : EREDES) (host : string) : http.Request :=
  buildRequest eredes
    (http.mkRequest "POST" (signInURLOf eredes) host []
       (signInBody (Password eredes) (Username eredes)))
    "".

(** The body [gatherUsages] posts when its two clock readings are the
    [n]-th and the next one. *)
Definition usagesRequestBodyAt (env : Env) (eredes : EREDES) (n : nat)
    : string :=
  usagesBody (Cpe eredes)
    (windowStart (StartDate eredes) (HistoryInterval eredes) (Now env n))
    (windowEnd (Now env (S n))).

(** The request [gatherUsages] hands to the client once the URL has
    parsed to [host], its clock readings being the [n]-th and the
    next. *)
Definition usageRequest (env : Env) (eredes : EREDES) (token host : string)
    (n : nat) : http.Request :=
  buildRequest eredes
    (http.mkRequest "POST" eredesUsage host []
       (usagesRequestBodyAt env eredes n))
    token.

(** The world after one more request. *)
Definition afterRequest (w : World) (request : http.Request) : World :=
  mkWorld (sent w ++ [request])%list (clockReads w) (acc w).

(** The world after more calls on the accumulator. *)
Definition afterCalls (w : World) (calls : list telegraf.AccCall) : World :=
  mkWorld (sent w) (clockReads w) (acc w ++ calls)%list.

(** The world [gatherUsages] is in after its two clock readings. *)
Definition afterClock (w : World) : World :=
  mkWorld (sent w) (S (S (clockReads w))) (acc w).

(** Noon of 10 January 2021, on the wall clock of location [l]. *)
Definition noon_2021_01_10 (l : time.Location) : time.Time :=
  time.Date 2021 1 10 12 0 0 0 l.

(** The date of a day number against the inverse computation [Date]
    makes, and the ranges of month and day. *)
Definition dayRoundTrips (n : Z) : bool :=
  let '(year, month, day, _) := time.dateOfDay n in
  (time.daysSinceEpoch year + time.daysBefore (month - 1)
     + (if time.isLeap year && (month >=? 3) then 1 else 0)
     + (day - 1) =? n)
  && (1 <=? month) && (month <=? 12) && (1 <=? day) && (day <=? 31).

(** [f] holds on the [n] integers from [i] on. *)
Fixpoint allFrom (f : Z -> bool) (n : nat) (i : Z) : bool :=
  match n with
  | O => true
  | S n' => f i && allFrom f n' (i + 1)
  end.

(** The value of the last entry of [eredes.Headers], in the order of the
    loop, whose key is "host" in any letter case. *)
Fixpoint lastHost (headers : list (string * string)) : option string :=
  match headers with
  | [] => None
  | (k, v) :: rest =>
      match lastHost rest with
      | Some v' => Some v'
      | None => if (strings.ToLower k =? "host")%string then Some v else None
      end
  end.

(** 23:59:59 of the day with number [n], in the layout of the plugin. *)
Definition endOfDayText (n : Z) : string :=
  let '(y, m, d, _) := time.dateOfDay n in
  time.formatDateTime y m d 23 59 59.

(** The line feed, the cutset of the token trimming. *)
Definition newline : string := String (ascii_of_N 10) EmptyString.

(** Two times, each in a fixed zone, that show the same wall clock. *)
Definition sameWall (t1 t2 : time.Time) : Prop :=
  exists o1 o2,
    time.loc t1 = time.FixedZone o1 /\ time.loc t2 = time.FixedZone o2
    /\ time.unixNano t1 + o1 * 1000000000
       = time.unixNano t2 + o2 * 1000000000.

(** The offset of [l] is [o] all through the seconds from [a] up to
    [b]: [l] is the fixed zone of offset [o], or every lookup in that
    range finds a zone of offset [o] that spans the range. *)
Definition offsetHolds (l : time.Location) (o a b : Z) : Prop :=
  l = time.FixedZone o
  \/ forall x, a <= x < b ->
       exists s e, time.lookup l x = (o, s, e) /\ s <= a /\ b <= e.

(** The offset of the location of [t] is [o] from [d] seconds before
    [t] until [t], with a margin of the size of the offset on both
    sides: the zone adjustment of [Date] looks that far. *)
Definition offsetSteady (t : time.Time) (o d : Z) : Prop :=
  offsetHolds (time.loc t) o
    (time.Unix t - d - Z.abs o) (time.Unix t + Z.abs o + 1).

(** Europe/Lisbon from 25 October 2020 to 27 March 2022: WET, and WEST
    (one hour ahead) from 28 March to 31 October 2021; the changes are
    at 01:00 UTC. *)
Definition europeLisbon : time.Location :=
  let autumn20 := time.Unix (time.Date 2020 10 25 1 0 0 0 time.UTC) in
  let spring21 := time.Unix (time.Date 2021 3 28 1 0 0 0 time.UTC) in
  let autumn21 := time.Unix (time.Date 2021 10 31 1 0 0 0 time.UTC) in
  let spring22 := time.Unix (time.Date 2022 3 27 1 0 0 0 time.UTC) in
  time.mkLocation
    (fun sec =>
       if sec <? spring21 then (0, autumn20, spring21)
       else if sec <? autumn21 then (3600, spring21, autumn21)
       else (0, autumn21, spring22)).

(* ================================================================== *)
(** ** A small world to run the plugin in *)
(* ================================================================== *)

Definition world0 : World := mkWorld [] 0 [].

Definition exampleToken := "c2Vzc2lvbi0x".

Definition exampleSignInResponse : string :=
  "{" ++ q ++ "Body" ++ q ++ ":{" ++ q ++ "Result" ++ q ++ ":{"
      ++ q ++ "token" ++ q ++ ":" ++ q ++ exampleToken ++ q ++ "}}}".

(** A stand-in for [gjson.Get] that knows one document and one path. *)
Definition exampleGet (json path : string) : gjson.Result :=
  if ((json =? exampleSignInResponse) && (path =? "Body.Result.token"))%string
  then gjson.mkResult gjson.String_ (q ++ exampleToken ++ q) exampleToken ""
  else gjson.missing.

(** A server that answers every request with the same status and
    body, at noon of 10 January 2021 (UTC). *)
Definition exampleEnv (status : Z) (body : string) : Env :=
  mkEnv (fun _ => noon_2021_01_10 time.UTC)
        (fun cc => Ok (tls.mkConfig cc))
        (fun _ => Ok "online.e-redes.pt")
        (fun _ _ _ => Ok (http.mkResponse status (Ok body)))
        exampleGet.

(** A server whose sign-in works and whose usage endpoint answers with
    [status] and [body]. *)
Definition exampleServer (status : Z) (body : string) : Env :=
  mkEnv (fun _ => noon_2021_01_10 time.UTC)
        (fun cc => Ok (tls.mkConfig cc))
        (fun _ => Ok "online.e-redes.pt")
        (fun _ _ request =>
           if (http.URL request =? eredesSignIn)%string
           then Ok (http.mkResponse 200 (Ok exampleSignInResponse))
           else Ok (http.mkResponse status (Ok body)))
        exampleGet.

(** A network that cannot be reached. *)
Definition exampleOffline : Env :=
  mkEnv (fun _ => noon_2021_01_10 time.UTC)
        (fun cc => Ok (tls.mkConfig cc))
        (fun _ => Ok "online.e-redes.pt")
        (fun _ _ _ => Err "dial tcp: i/o timeout")
        exampleGet.

Definition exampleMetric : telegraf.Metric :=
  telegraf.mkMetric "edp_dist" [("meterLoadCurve", telegraf.FString "0.25")]
    [] (time.Date 2021 1 9 0 15 0 0 time.UTC).

(** A parser that rejects the empty payload and finds one reading in
    any other. *)
Definition exampleParser : Parser :=
  fun payload =>
    if (payload =? "")%string then Err "unexpected end of JSON input"
    else Ok [exampleMetric].

Definition exampleTLS : tls.ClientConfig := tls.mkClientConfig "" "" "" false.

(** A configuration as the host binds it from the TOML file, before
    [Init] and [SetParser]. *)
Definition exampleConfig (usageURL startDate : string) (codes : list Z)
    (testsOnly : bool) : EREDES :=
  mkEREDES [] "" usageURL "user" "secret" "PT0002000012345678XX"
    exampleTLS codes (120 * time.Second) (168 * time.Hour) startDate
    testsOnly None None.

(** The same configuration once [Init] and [SetParser] have run. *)
Definition examplePlugin (env : Env) (usageURL startDate : string)
    (codes : list Z) (testsOnly : bool) : EREDES :=
  SetParser (fst (Init env (exampleConfig usageURL startDate codes testsOnly)))
    exampleParser.

(* ================================================================== *)
(** ** The calendar *)
(* ================================================================== *)

Lemma allFrom_spec (f : Z -> bool) (n : nat) :
  forall i, allFrom f n i = true ->
  forall j, i <= j < i + Z.of_nat n -> f j = true.
Proof.
  induction n as [|n IH]; intros i H j Hj.
  - simpl in Hj. lia.
  - simpl in H. apply andb_true_iff in H as [Hi Hrest].
    destruct (Z.eq_dec j i) as [->|Hne]; [exact Hi|].
    apply (IH (i + 1) Hrest). lia.
Qed.

Lemma cycle_roundtrips :
  allFrom dayRoundTrips (Z.to_nat time.daysPer400Years) 0 = true.
Proof. vm_compute. reflexivity. Qed.

(** The calendar repeats every 400 years, so the round trip checked on
    one cycle holds on every day. *)
Lemma isLeap_shift k y : time.isLeap (400 * k + y) = time.isLeap y.
Proof.
  unfold time.isLeap.
  replace ((400 * k + y) mod 4) with (y mod 4)
    by (rewrite (Z.add_comm _ y); replace (400 * k) with ((100 * k) * 4) by ring;
        now rewrite Z.mod_add).
  replace ((400 * k + y) mod 100) with (y mod 100)
    by (rewrite (Z.add_comm _ y); replace (400 * k) with ((4 * k) * 100) by ring;
        now rewrite Z.mod_add).
  replace ((400 * k + y) mod 400) with (y mod 400)
    by (rewrite (Z.add_comm _ y); replace (400 * k) with (k * 400) by ring;
        now rewrite Z.mod_add).
  reflexivity.
Qed.

Lemma daysSinceEpoch_shift k y :
  time.daysSinceEpoch (400 * k + y) = time.daysPer400Years * k + time.daysSinceEpoch y.
Proof.
  unfold time.daysSinceEpoch, time.daysPer400Years, time.daysPer100Years, time.daysPer4Years.
  cbv zeta.
  replace ((400 * k + y - 1) / 400) with (k + (y - 1) / 400).
  2:{ replace (400 * k + y - 1) with ((y - 1) + k * 400) by ring.
      rewrite Z.div_add by lia. ring. }
  replace (400 * k + y - 1 - 400 * (k + (y - 1) / 400)) with (y - 1 - 400 * ((y - 1) / 400)) by ring.
  ring.
Qed.

Lemma dateOfDay_shift k r :
  0 <= r < time.daysPer400Years ->
  time.dateOfDay (time.daysPer400Years * k + r) =
  let '(y, m, d, yd) := time.dateOfDay r in (400 * k + y, m, d, yd).
Proof.
  intros Hr.
  assert (E1 : (time.daysPer400Years * k + r) / time.daysPer400Years = k).
  { rewrite Z.mul_comm, Z.add_comm, Z.div_add by (unfold time.daysPer400Years; lia).
    rewrite Z.div_small by lia. lia. }
  assert (E0 : r / time.daysPer400Years = 0) by (apply Z.div_small; lia).
  unfold time.dateOfDay. cbv zeta.
  rewrite E1, E0.
  replace (time.daysPer400Years * k + r - time.daysPer400Years * k) with r by ring.
  replace (r - time.daysPer400Years * 0) with r by ring.
  set (c100 := r / time.daysPer100Years - Z.shiftr (r / time.daysPer100Years) 2).
  set (d1 := r - time.daysPer100Years * c100).
  set (c4 := d1 / time.daysPer4Years).
  set (d2 := d1 - time.daysPer4Years * c4).
  set (c1 := d2 / 365 - Z.shiftr (d2 / 365) 2).
  set (yd := d2 - 365 * c1).
  set (Y := 400 * 0 + 100 * c100 + 4 * c4 + c1 + 1).
  replace (400 * k + 100 * c100 + 4 * c4 + c1 + 1) with (400 * k + Y)
    by (unfold Y; ring).
  rewrite isLeap_shift.
  destruct (time.isLeap Y && (yd =? 31 + 29 - 1)); [reflexivity|].
  destruct (time.isLeap Y && (yd >? 31 + 29 - 1));
    match goal with
    | |- context [if ?c then _ else _] => destruct c; reflexivity
    end.
Qed.

Lemma dayRoundTrips_all n : dayRoundTrips n = true.
Proof.
  pose proof (Z.div_mod n time.daysPer400Years ltac:(discriminate)) as E.
  pose proof (Z.mod_pos_bound n time.daysPer400Years ltac:(reflexivity)) as Hr.
  set (k := n / time.daysPer400Years) in *.
  set (r := n mod time.daysPer400Years) in *.
  pose proof (allFrom_spec _ _ _ cycle_roundtrips r) as Hc.
  rewrite Z2Nat.id in Hc by discriminate.
  specialize (Hc ltac:(lia)).
  unfold dayRoundTrips in *.
  rewrite E, dateOfDay_shift by exact Hr.
  destruct (time.dateOfDay r) as [[[y m] d] yd].
  rewrite daysSinceEpoch_shift, isLeap_shift.
  repeat (apply andb_true_iff in Hc as [Hc ?]).
  repeat (apply andb_true_iff; split); try assumption.
  apply Z.eqb_eq in Hc. apply Z.eqb_eq.
  destruct (time.isLeap y && (m >=? 3)); lia.
Qed.

Lemma dateOfDay_inverse n year month day yday :
  time.dateOfDay n = (year, month, day, yday) ->
  time.daysSinceEpoch year + time.daysBefore (month - 1)
    + (if time.isLeap year && (month >=? 3) then 1 else 0) + (day - 1) = n
  /\ 1 <= month <= 12 /\ 1 <= day <= 31.
Proof.
  intros E. pose proof (dayRoundTrips_all n) as H.
  unfold dayRoundTrips in H. rewrite E in H.
  repeat (apply andb_true_iff in H as [H ?]).
  apply Z.eqb_eq in H. lia.
Qed.

(* ================================================================== *)
(** ** Zones *)
(* ================================================================== *)

Lemma offsetHolds_at l o a b x :
  offsetHolds l o a b -> a <= x < b -> time.offsetAt l x = o.
Proof.
  intros [->|H] Hx; [reflexivity|].
  destruct (H x Hx) as (s & e & E & _). unfold time.offsetAt.
  rewrite E. reflexivity.
Qed.


Lemma toUTC_FixedZone o unix : time.toUTC (time.FixedZone o) unix = unix - o.
Proof.
  unfold time.toUTC, time.offsetAt. cbn [time.lookup time.FixedZone].
  destruct (Z.eqb_spec o 0) as [->|Hne]; cbn [negb]; [lia|].
  destruct (unix - o <? time.alpha); [reflexivity|].
  destruct (unix - o >=? time.omega); reflexivity.
Qed.

(** Away from a change of offset, the zone adjustment of [Date] takes
    the offset in force. *)
Lemma toUTC_offsetHolds l o a b unix :
  offsetHolds l o a b ->
  a <= unix < b -> a <= unix - o < b ->
  time.toUTC l unix = unix - o.
Proof.
  intros [->|H] H1 H2; [apply toUTC_FixedZone|].
  destruct (H unix H1) as (s & e & E & Hs & He).
  unfold time.toUTC. rewrite E.
  destruct (Z.eqb_spec o 0) as [->|Hne]; cbn [negb]; [lia|].
  destruct (Z.ltb_spec (unix - o) s); [lia|].
  destruct (Z.geb_spec (unix - o) e); [lia|reflexivity].
Qed.

(* ================================================================== *)
(** ** [Date] and [Format] at the end of a day *)
(* ================================================================== *)

Lemma norm_in_range hi lo base :
  0 <= lo < base -> time.norm hi lo base = (hi, lo).
Proof.
  intros H. unfold time.norm.
  destruct (Z.ltb_spec lo 0); [lia|].
  destruct (Z.geb_spec lo base); [lia|reflexivity].
Qed.

(** The wall clock, as seconds, of 23:59:59 on the day of [t], before
    the zone adjustment. *)
Lemma Date_end_of_day t nsec :
  0 <= nsec < 1000000000 ->
  time.Date (time.Year t) (time.Month t) (time.Day t) 23 59 59 nsec (time.loc t)
  = time.mkTime
      (time.toUTC (time.loc t)
         (time.absDay t * time.secondsPerDay + 86399 - time.unixToInternal)
       * 1000000000 + nsec)
      (time.loc t).
Proof.
  intros Hns. unfold time.Year, time.Month, time.Day.
  destruct (time.dateOfDay (time.absDay t)) as [[[y m] d] yd] eqn:E.
  apply dateOfDay_inverse in E as (E & Hm & Hd).
  unfold time.Date.
  rewrite (norm_in_range y (m - 1) 12) by lia.
  rewrite (norm_in_range 59 nsec _) by lia.
  rewrite (norm_in_range 59 59 60), (norm_in_range 23 59 60),
    (norm_in_range d 23 24) by lia.
  replace (m - 1 + 1) with m by ring.
  cbv zeta. do 4 f_equal.
  rewrite <- E.
  change time.secondsPerHour with 3600. change time.secondsPerMinute with 60.
  destruct (time.isLeap y && (m >=? 3)); lia.
Qed.

Lemma abs_Date_end_of_day t nsec o a b :
  0 <= nsec < 1000000000 ->
  offsetHolds (time.loc t) o a b ->
  a <= time.Unix t - Z.abs o -> time.Unix t + 86400 + Z.abs o <= b ->
  let t' := time.Date (time.Year t) (time.Month t) (time.Day t)
              23 59 59 nsec (time.loc t) in
  time.abs t' = time.absDay t * time.secondsPerDay + 86399
  /\ time.loc t' = time.loc t.
Proof.
  intros Hns Ho Ha Hb. cbv zeta. rewrite Date_end_of_day by exact Hns.
  split; [|reflexivity].
  assert (Eo : time.offsetAt (time.loc t) (time.Unix t) = o)
    by (apply (offsetHolds_at _ _ _ _ _ Ho); lia).
  set (g := time.absDay t * time.secondsPerDay + 86399 - time.unixToInternal).
  assert (Hg : time.Unix t + o <= g <= time.Unix t + o + 86399).
  { unfold g, time.absDay, time.abs. rewrite Eo.
    change time.secondsPerDay with 86400.
    pose proof (Z.div_mod (time.Unix t + o + time.unixToInternal) 86400
                  ltac:(lia)) as Hd.
    pose proof (Z.mod_pos_bound (time.Unix t + o + time.unixToInternal) 86400
                  ltac:(lia)) as Hm.
    lia. }
  rewrite (toUTC_offsetHolds _ o a b) by (try exact Ho; lia).
  unfold time.abs, time.Unix. cbn [time.unixNano time.loc].
  rewrite Z.div_add_l by lia. rewrite (Z.div_small nsec) by lia.
  rewrite Z.add_0_r.
  rewrite (offsetHolds_at _ _ _ _ _ Ho) by lia.
  unfold g. lia.
Qed.

Lemma absDay_end_of_day t n :
  time.abs t = n * time.secondsPerDay + 86399 ->
  time.absDay t = n /\ time.Hour_ t = 23 /\ time.Minute_ t = 59
  /\ time.Second_ t = 59.
Proof.
  intros E. unfold time.absDay, time.Hour_, time.Minute_, time.Second_.
  rewrite E.
  change time.secondsPerDay with 86400.
  change time.secondsPerHour with 3600. change time.secondsPerMinute with 60.
  repeat split.
  - rewrite Z.add_comm, Z.div_add by lia. reflexivity.
  - rewrite Z.add_comm, Z.mod_add by lia. reflexivity.
  - replace (n * 86400 + 86399) with (86399 + (n * 24) * 3600) by ring.
    rewrite Z.mod_add by lia. reflexivity.
  - replace (n * 86400 + 86399) with (86399 + (n * 1440) * 60) by ring.
    rewrite Z.mod_add by lia. reflexivity.
Qed.

Lemma Format_end_of_day t nsec o a b :
  0 <= nsec < 1000000000 ->
  offsetHolds (time.loc t) o a b ->
  a <= time.Unix t - Z.abs o -> time.Unix t + 86400 + Z.abs o <= b ->
  time.Format (time.Date (time.Year t) (time.Month t) (time.Day t)
                 23 59 59 nsec (time.loc t))
  = endOfDayText (time.absDay t).
Proof.
  intros Hns Ho Ha Hb.
  destruct (abs_Date_end_of_day t nsec o a b Hns Ho Ha Hb) as [Habs _].
  apply absDay_end_of_day in Habs as (Hd & Hh & Hm & Hs).
  set (t' := time.Date _ _ _ _ _ _ _ _) in *.
  unfold time.Format, time.Year, time.Month, time.Day, endOfDayText.
  rewrite Hd, Hh, Hm, Hs.
  destruct (time.dateOfDay (time.absDay t)) as [[[y m] d] yd].
  reflexivity.
Qed.

Lemma Unix_Add_seconds t k :
  time.Unix (time.Add t (k * 1000000000)) = time.Unix t + k.
Proof.
  unfold time.Unix, time.Add. cbn [time.unixNano].
  rewrite Z.div_add by lia. reflexivity.
Qed.

Lemma absDay_Add_days t k o :
  time.offsetAt (time.loc t) (time.Unix t) = o ->
  time.offsetAt (time.loc t) (time.Unix t - k * 86400) = o ->
  time.absDay (time.Add t (- (k * twentyFourHours))) = time.absDay t - k.
Proof.
  intros E1 E2.
  replace (- (k * twentyFourHours)) with ((- (k * 86400)) * 1000000000)
    by (change twentyFourHours with 86400000000000; ring).
  unfold time.absDay, time.abs.
  rewrite Unix_Add_seconds. cbn [time.Add time.loc].
  replace (time.Unix t + - (k * 86400)) with (time.Unix t - k * 86400) by ring.
  rewrite E1, E2.
  change time.secondsPerDay with 86400.
  replace (time.Unix t - k * 86400 + o + time.unixToInternal)
    with (time.Unix t + o + time.unixToInternal + (- k) * 86400) by ring.
  rewrite Z.div_add by lia. ring.
Qed.

Lemma absDay_Add_day t o :
  time.offsetAt (time.loc t) (time.Unix t) = o ->
  time.offsetAt (time.loc t) (time.Unix t - 86400) = o ->
  time.absDay (time.Add t (- twentyFourHours)) = time.absDay t - 1.
Proof.
  intros E1 E2.
  replace (- twentyFourHours) with (- (1 * twentyFourHours)) by ring.
  apply (absDay_Add_days t 1 o); [exact E1|].
  replace (time.Unix t - 1 * 86400) with (time.Unix t - 86400) by ring.
  exact E2.
Qed.

Lemma Unix_Add_day t :
  time.Unix (time.Add t (- twentyFourHours)) = time.Unix t - 86400.
Proof.
  change (- twentyFourHours) with ((-86400) * 1000000000).
  rewrite Unix_Add_seconds. ring.
Qed.

(* ================================================================== *)
(** ** The Window Calculator *)
(* ================================================================== *)

Lemma windowEnd_previous_day now o :
  offsetSteady now o 86400 ->
  windowEnd now = endOfDayText (time.absDay now - 1).
Proof.
  intros Ho. unfold offsetSteady in Ho.
  unfold windowEnd, windowEndDate. cbv zeta.
  rewrite (Format_end_of_day (time.Add now (- twentyFourHours)) 59 o _ _
             ltac:(lia) Ho)
    by (rewrite Unix_Add_day; lia).
  rewrite (absDay_Add_day now o)
    by (apply (offsetHolds_at _ _ _ _ _ Ho); lia).
  reflexivity.
Qed.

Lemma windowStart_short now hi o :
  hi < twentyFourHours ->
  offsetSteady now o 86400 ->
  windowStart "" hi now = endOfDayText (time.absDay now - 1).
Proof.
  intros H Ho. unfold offsetSteady in Ho.
  unfold windowStart. cbv zeta.
  change ("" =? "")%string with true. cbv iota.
  replace ((hi =? 0) || (hi <? twentyFourHours)) with true
    by (symmetry; apply orb_true_iff; right; apply Z.ltb_lt; exact H).
  rewrite (Format_end_of_day (time.Add now (- twentyFourHours)) 0 o _ _
             ltac:(lia) Ho)
    by (rewrite Unix_Add_day; lia).
  rewrite (absDay_Add_day now o)
    by (apply (offsetHolds_at _ _ _ _ _ Ho); lia).
  reflexivity.
Qed.

Lemma windowStart_long now hi o a b :
  twentyFourHours <= hi ->
  offsetHolds (time.loc now) o a b ->
  a <= time.Unix (time.Add now (- hi)) - 86400 - Z.abs o ->
  time.Unix (time.Add now (- hi)) + Z.abs o < b ->
  windowStart "" hi now
  = endOfDayText (time.absDay (time.Add now (- hi)) - 1).
Proof.
  intros H Ho Ha Hb. unfold windowStart. cbv zeta.
  change ("" =? "")%string with true. cbv iota.
  replace ((hi =? 0) || (hi <? twentyFourHours)) with false.
  2:{ symmetry. apply orb_false_iff. split.
      - apply Z.eqb_neq. change twentyFourHours with 86400000000000 in H. lia.
      - apply Z.ltb_ge. exact H. }
  set (t1 := time.Add now (- hi)) in *.
  assert (Ho1 : offsetHolds (time.loc t1) o a b) by exact Ho.
  rewrite (Format_end_of_day (time.Add t1 (- twentyFourHours)) 0 o a b
             ltac:(lia) Ho1)
    by (rewrite Unix_Add_day; lia).
  rewrite (absDay_Add_day t1 o)
    by (apply (offsetHolds_at _ _ _ _ _ Ho1); lia).
  reflexivity.
Qed.

(** The wall clock decides the window, not the offset of a fixed
    zone. *)
Lemma sameWall_abs t1 t2 : sameWall t1 t2 -> time.abs t1 = time.abs t2.
Proof.
  intros (o1 & o2 & E1 & E2 & H). unfold time.abs, time.Unix.
  rewrite E1, E2. unfold time.offsetAt. cbn [time.lookup time.FixedZone].
  assert (E : forall n o, n / 1000000000 + o = (n + o * 1000000000) / 1000000000)
    by (intros n o; rewrite Z.div_add by lia; reflexivity).
  rewrite !E, H. reflexivity.
Qed.

Lemma sameWall_Add t1 t2 d :
  sameWall t1 t2 -> sameWall (time.Add t1 d) (time.Add t2 d).
Proof.
  intros (o1 & o2 & E1 & E2 & H). exists o1, o2.
  unfold time.Add. cbn [time.unixNano time.loc]. repeat split; [exact E1|exact E2|lia].
Qed.

Lemma Date_loc year month day hour min sec nsec l :
  time.loc (time.Date year month day hour min sec nsec l) = l.
Proof.
  unfold time.Date.
  destruct (time.norm year (month - 1) 12) as [y m].
  destruct (time.norm sec nsec 1000000000) as [s ns].
  destruct (time.norm min s 60) as [mi s'].
  destruct (time.norm hour mi 60) as [h mi'].
  destruct (time.norm day h 24) as [d h'].
  reflexivity.
Qed.

Lemma Date_sameWall year month day hour min sec nsec l1 l2 :
  sameWall (time.Date year month day hour min sec nsec (time.FixedZone l1))
           (time.Date year month day hour min sec nsec (time.FixedZone l2)).
Proof.
  exists l1, l2. rewrite !Date_loc. split; [reflexivity|split; [reflexivity|]].
  unfold time.Date.
  destruct (time.norm year (month - 1) 12) as [y m].
  destruct (time.norm sec nsec 1000000000) as [s ns].
  destruct (time.norm min s 60) as [mi s'].
  destruct (time.norm hour mi 60) as [h mi'].
  destruct (time.norm day h 24) as [d h'].
  cbn [time.unixNano]. rewrite !toUTC_FixedZone. ring.
Qed.

(** In a fixed zone every stretch of time has the one offset. *)
Lemma offsetSteady_FixedZone t o d :
  time.loc t = time.FixedZone o -> offsetSteady t o d.
Proof. intros E. left. exact E. Qed.

(** Claim C1, as the code has it: for [now] = 2021-01-10 12:00:00 (in
    any fixed-offset location), a history interval of 168h and no start
    date, the Window Calculator gives start = "2021-01-02 23:59:59" and
    end = "2021-01-09 23:59:59". *)
Theorem scenario_window_168h l :
  window "" (168 * time.Hour) (noon_2021_01_10 (time.FixedZone l))
  = ("2021-01-02 23:59:59", "2021-01-09 23:59:59").
Proof.
  set (now := noon_2021_01_10 (time.FixedZone l)).
  assert (L : time.loc now = time.FixedZone l) by apply Date_loc.
  assert (W : sameWall now (noon_2021_01_10 time.UTC))
    by apply Date_sameWall.
  unfold window. f_equal.
  - rewrite (windowStart_long now _ l
               (time.Unix (time.Add now (- (168 * time.Hour))) - 86400 - Z.abs l)
               (time.Unix (time.Add now (- (168 * time.Hour))) + Z.abs l + 1));
      [|vm_compute; discriminate|left; exact L|lia|lia].
    unfold time.absDay.
    rewrite (sameWall_abs _ _ (sameWall_Add _ _ _ W)).
    vm_compute. reflexivity.
  - rewrite (windowEnd_previous_day now l (offsetSteady_FixedZone _ _ _ L)).
    unfold time.absDay.
    rewrite (sameWall_abs _ _ W). vm_compute. reflexivity.
Qed.

(** Claim C1, as stated, fails: on that input the window is not
    ("2021-01-01 23:59:59", "2021-01-08 23:59:59"). *)
Lemma scenario_window_168h_not_as_claimed :
  window "" (168 * time.Hour) (noon_2021_01_10 time.UTC)
  <> ("2021-01-01 23:59:59", "2021-01-08 23:59:59").
Proof. vm_compute. discriminate. Qed.





(** Where the offset changes within the day before [now], [end] is not
    on the day before [now].  In Lisbon, at 23:30 of 31 October 2021
    (the day of 25 hours) [end] is on the day of [now] itself; at 00:30
    of 29 March 2021 (the day after the one of 23 hours) it is two days
    back. *)
Lemma lisbon_end_at_a_change_of_offset :
  window "" (24 * time.Hour) (time.Date 2021 10 31 23 30 0 0 europeLisbon)
  = ("2021-10-30 23:59:59", "2021-10-31 23:59:59")
  /\ window "" (24 * time.Hour) (time.Date 2021 3 29 0 30 0 0 europeLisbon)
     = ("2021-03-26 23:59:59", "2021-03-27 23:59:59").
Proof. vm_compute. split; reflexivity. Qed.

(** Claim C3 on the code: at noon of 10 January 2021 a history interval
    of zero gives start = "2021-01-09 23:59:59" while 24h gives
    start = "2021-01-08 23:59:59", so an interval below 24h does not
    behave as 24h does. *)
Theorem short_interval_differs_from_24h :
  let now := noon_2021_01_10 time.UTC in
  window "" 0 now = ("2021-01-09 23:59:59", "2021-01-09 23:59:59")
  /\ window "" (24 * time.Hour) now
     = ("2021-01-08 23:59:59", "2021-01-09 23:59:59")
  /\ window "" 0 now <> window "" (24 * time.Hour) now.
Proof. vm_compute. repeat split; try reflexivity. discriminate. Qed.

(** Claim C6: for a non-empty start date, every [now] and every history
    interval, [start] is the start date string itself, and another
    history interval gives the same [start]. *)
Theorem startDate_verbatim StartDate hi hi' now :
  StartDate <> "" ->
  fst (window StartDate hi now) = StartDate
  /\ fst (window StartDate hi' now) = fst (window StartDate hi now).
Proof.
  intros H. unfold window, windowStart. cbn [fst].
  destruct (String.eqb_spec StartDate "") as [E|_]; [contradiction|].
  split; reflexivity.
Qed.

Lemma startDate_verbatim_witness :
  "2020-12-31 23:59:59" <> ""
  /\ fst (window "2020-12-31 23:59:59" (168 * time.Hour)
            (noon_2021_01_10 time.UTC)) = "2020-12-31 23:59:59".
Proof.
  split; [discriminate|].
  apply (startDate_verbatim "2020-12-31 23:59:59" (168 * time.Hour) 0
           (noon_2021_01_10 time.UTC)).
  discriminate.
Defined.

(* ================================================================== *)
(** ** What the functions of the plugin compute *)
(* ================================================================== *)

Lemma makeRequest_run env eredes url body token w :
  makeRequest env eredes url body token w =
  match url_Parse env url with
  | Err e => (Returns (Err e), w)
  | Ok host =>
      match client eredes with
      | None => (Panics, w)
      | Some c =>
          let request :=
            buildRequest eredes (http.mkRequest "POST" url host [] body) token in
          let w' := afterRequest w request in
          match Do env c (sent w) request with
          | Err e => (Returns (Err e), w')
          | Ok resp =>
              if responseHasSuccessCode (http.StatusCode resp)
                   (SuccessStatusCodes eredes)
              then match http.ReadAll resp with
                   | Err e => (Returns (Err e), w')
                   | Ok b => (Returns (Ok b), w')
                   end
              else (Returns (Err (statusError (http.StatusCode resp)
                                    (SuccessStatusCodes eredes))), w')
          end
      end
  end.
Proof.
  unfold makeRequest, http_NewRequest.
  destruct (url_Parse env url) as [host|e]; [|reflexivity].
  unfold bind, client_Do.
  destruct (client eredes) as [c|]; [|reflexivity].
  cbv zeta.
  destruct (Do env c (sent w) _) as [resp|e]; [|reflexivity].
  destruct (responseHasSuccessCode _ _); cbn [negb]; [|reflexivity].
  destruct (http.ReadAll resp); reflexivity.
Qed.

Lemma signIn_run env eredes w :
  signIn env eredes w =
  if RunTestsOnly eredes then (Returns (Ok "TOKEN1234567890"), w)
  else
    match makeRequest env eredes (signInURLOf eredes)
            (signInBody (Password eredes) (Username eredes)) "" w with
    | (Returns (Ok response), w') =>
        (Returns (Ok (gjson.Result_String
                        (gjson_Get env response "Body.Result.token"))), w')
    | (Returns (Err e), w') => (Returns (Err e), w')
    | (Panics, w') => (Panics, w')
    end.
Proof.
  unfold signIn, signInURLOf.
  destruct (RunTestsOnly eredes); [reflexivity|].
  cbv zeta. unfold bind.
  destruct (makeRequest _ _ _ _ _ w) as [[[b|e]|] w']; reflexivity.
Qed.

Lemma addMetrics_run metrics :
  forall w, addMetrics metrics w = (Returns tt, afterCalls w (map addFieldsOf metrics)).
Proof.
  induction metrics as [|m ms IH]; intros w.
  - destruct w. unfold afterCalls. cbn. rewrite app_nil_r. reflexivity.
  - cbn [addMetrics map]. unfold bind, acc_call. rewrite IH.
    unfold afterCalls. cbn [sent clockReads acc].
    rewrite <- app_assoc. reflexivity.
Qed.

Lemma gatherUsages_run env eredes token w :
  gatherUsages env eredes token w =
  if RunTestsOnly eredes then (Returns None, afterClock w)
  else
    match makeRequest env eredes eredesUsage
            (usagesRequestBodyAt env eredes (clockReads w)) token
            (afterClock w) with
    | (Panics, w') => (Panics, w')
    | (Returns (Err e), w') => (Returns (Some e), w')
    | (Returns (Ok response), w') =>
        match parser eredes with
        | None => (Panics, w')
        | Some p =>
            match p response with
            | Err e => (Returns (Some e), w')
            | Ok metrics =>
                (Returns None, afterCalls w' (map addFieldsOf metrics))
            end
        end
    end.
Proof.
  unfold gatherUsages, usagesRequestBodyAt, afterClock.
  cbv zeta. unfold bind at 1. unfold time_Now at 1. cbv beta iota.
  unfold bind at 1. unfold time_Now at 1. cbv beta iota.
  cbn [sent clockReads acc].
  destruct (RunTestsOnly eredes); cbn [negb]; [reflexivity|].
  unfold bind at 1.
  destruct (makeRequest _ _ _ _ _ _) as [[[response|e]|] w']; try reflexivity.
  unfold bind, parser_Parse.
  destruct (parser eredes) as [p|]; [|reflexivity].
  destruct (p response) as [metrics|e]; [|reflexivity].
  destruct metrics as [|m ms].
  - cbn. destruct w'. unfold afterCalls. cbn. rewrite app_nil_r. reflexivity.
  - change (0 <? Datatypes.length (m :: ms))%nat with true. cbv iota.
    rewrite addMetrics_run. reflexivity.
Qed.

Lemma Gather_run env eredes w :
  Gather env eredes w =
  match signIn env eredes w with
  | (Panics, w1) => (Panics, w1)
  | (Returns (Err e), w1) =>
      (Returns None, afterCalls w1 [telegraf.AddError ("[signIn]: " ++ e)])
  | (Returns (Ok token), w1) =>
      if (token =? "")%string then (Returns None, w1)
      else
        match gatherUsages env eredes token w1 with
        | (Panics, w2) => (Panics, w2)
        | (Returns (Some e), w2) =>
            (Returns None,
             afterCalls w2 [telegraf.AddError ("Error in : " ++ e)])
        | (Returns None, w2) => (Returns None, w2)
        end
  end.
Proof.
  unfold Gather. unfold bind at 1.
  destruct (signIn env eredes w) as [[[token|e]|] w1]; try reflexivity.
  destruct (token =? "")%string; cbn [negb]; [reflexivity|].
  unfold bind at 1.
  destruct (gatherUsages env eredes token w1) as [[[e|]|] w2]; reflexivity.
Qed.

(** What a call of [makeRequest] leaves behind. *)
Lemma makeRequest_world env eredes url body token w :
  let w' := snd (makeRequest env eredes url body token w) in
  acc w' = acc w /\ clockReads w' = clockReads w
  /\ (sent w' = sent w
      \/ exists host, url_Parse env url = Ok host
           /\ w' = afterRequest w
                     (buildRequest eredes
                        (http.mkRequest "POST" url host [] body) token)).
Proof.
  rewrite makeRequest_run.
  destruct (url_Parse env url) as [host|e]; [|cbn; auto].
  destruct (client eredes) as [c|]; [|cbn; auto].
  cbv zeta.
  assert (G : forall r,
    let w' := snd (r : outcome (result string),
                   afterRequest w (buildRequest eredes
                     (http.mkRequest "POST" url host [] body) token)) in
    acc w' = acc w /\ clockReads w' = clockReads w
    /\ (sent w' = sent w
        \/ exists host0, Ok host = Ok host0
           /\ w' = afterRequest w (buildRequest eredes
                     (http.mkRequest "POST" url host0 [] body) token))).
  { intros r. cbn. repeat split. right. exists host. split; reflexivity. }
  destruct (Do env c (sent w) _) as [resp|e]; [|apply G].
  destruct (responseHasSuccessCode _ _); [|apply G].
  destruct (http.ReadAll resp); apply G.
Qed.

Lemma makeRequest_returns env eredes url body token w c :
  client eredes = Some c ->
  fst (makeRequest env eredes url body token w) <> Panics.
Proof.
  intros Hc. rewrite makeRequest_run, Hc.
  destruct (url_Parse env url); [|discriminate].
  cbv zeta.
  destruct (Do env c (sent w) _) as [resp|e]; [|discriminate].
  destruct (responseHasSuccessCode _ _); [|discriminate].
  destruct (http.ReadAll resp); discriminate.
Qed.

Lemma makeRequest_ok env eredes url body token w b w' :
  makeRequest env eredes url body token w = (Returns (Ok b), w') ->
  exists c host resp,
    client eredes = Some c /\ url_Parse env url = Ok host
    /\ let request :=
         buildRequest eredes (http.mkRequest "POST" url host [] body) token in
       Do env c (sent w) request = Ok resp
       /\ responseHasSuccessCode (http.StatusCode resp)
            (SuccessStatusCodes eredes) = true
       /\ http.ReadAll resp = Ok b
       /\ w' = afterRequest w request.
Proof.
  rewrite makeRequest_run.
  destruct (url_Parse env url) as [host|e]; [|discriminate].
  destruct (client eredes) as [c|]; [|discriminate].
  cbv zeta.
  destruct (Do env c (sent w) _) as [resp|e] eqn:ED; [|discriminate].
  destruct (responseHasSuccessCode _ _) eqn:ES; [|discriminate].
  destruct (http.ReadAll resp) as [b'|e] eqn:ER; [|discriminate].
  intros H. injection H as <- <-.
  exists c, host, resp. repeat split; assumption.
Qed.

Lemma signIn_world env eredes w :
  acc (snd (signIn env eredes w)) = acc w
  /\ clockReads (snd (signIn env eredes w)) = clockReads w.
Proof.
  rewrite signIn_run.
  destruct (RunTestsOnly eredes); [split; reflexivity|].
  pose proof (makeRequest_world env eredes (signInURLOf eredes)
                (signInBody (Password eredes) (Username eredes)) "" w)
    as (Ha & Hc & _).
  destruct (makeRequest _ _ _ _ _ w) as [[[b|e]|] w']; cbn [snd] in *; auto.
Qed.

Lemma signIn_returns env eredes w c :
  client eredes = Some c -> fst (signIn env eredes w) <> Panics.
Proof.
  intros Hc. rewrite signIn_run.
  destruct (RunTestsOnly eredes); [discriminate|].
  pose proof (makeRequest_returns env eredes (signInURLOf eredes)
                (signInBody (Password eredes) (Username eredes)) "" w c Hc) as H.
  destruct (makeRequest _ _ _ _ _ w) as [[[b|e]|] w']; cbn [fst] in *;
    [discriminate|discriminate|exact H].
Qed.

Lemma gatherUsages_returns env eredes token w c p :
  client eredes = Some c -> parser eredes = Some p ->
  fst (gatherUsages env eredes token w) <> Panics.
Proof.
  intros Hc Hp. rewrite gatherUsages_run.
  destruct (RunTestsOnly eredes); [discriminate|].
  pose proof (makeRequest_returns env eredes eredesUsage
                (usagesRequestBodyAt env eredes (clockReads w)) token
                (afterClock w) c Hc) as H.
  destruct (makeRequest _ _ _ _ _ _) as [[[b|e]|] w']; cbn [fst] in *;
    [|discriminate|exfalso; apply H; reflexivity].
  rewrite Hp. destruct (p b); discriminate.
Qed.

Lemma gatherUsages_error_acc env eredes token w e :
  fst (gatherUsages env eredes token w) = Returns (Some e) ->
  acc (snd (gatherUsages env eredes token w)) = acc w.
Proof.
  rewrite gatherUsages_run.
  destruct (RunTestsOnly eredes); [discriminate|].
  pose proof (makeRequest_world env eredes eredesUsage
                (usagesRequestBodyAt env eredes (clockReads w)) token
                (afterClock w)) as (Ha & _).
  destruct (makeRequest _ _ _ _ _ _) as [[[b|e']|] w']; cbn [fst snd] in *;
    [|intros _; exact Ha|discriminate].
  destruct (parser eredes) as [p|]; [|discriminate].
  destruct (p b); [discriminate|]. intros _. exact Ha.
Qed.

(* ================================================================== *)
(** ** The usage request and the status check *)
(* ================================================================== *)

Lemma makeRequest_sends env eredes url body token w c host :
  client eredes = Some c ->
  url_Parse env url = Ok host ->
  snd (makeRequest env eredes url body token w)
  = afterRequest w
      (buildRequest eredes (http.mkRequest "POST" url host [] body) token).
Proof.
  intros Hc Hu. rewrite makeRequest_run, Hu, Hc. cbv zeta.
  destruct (Do env c (sent w) _) as [resp|e]; [|reflexivity].
  destruct (responseHasSuccessCode _ _); [|reflexivity].
  destruct (http.ReadAll resp); reflexivity.
Qed.

Lemma gatherUsages_sent env eredes token w :
  RunTestsOnly eredes = false ->
  sent (snd (gatherUsages env eredes token w))
  = sent (snd (makeRequest env eredes eredesUsage
                 (usagesRequestBodyAt env eredes (clockReads w)) token
                 (afterClock w))).
Proof.
  intros Ht. rewrite gatherUsages_run, Ht.
  destruct (makeRequest _ _ _ _ _ _) as [[[b|e]|] w']; try reflexivity.
  destruct (parser eredes) as [p|]; [|reflexivity].
  destruct (p b); reflexivity.
Qed.

Lemma applyHeaders_URL headers :
  forall request, http.URL (applyHeaders headers request) = http.URL request.
Proof.
  induction headers as [|[k v] hs IH]; intros r; [reflexivity|].
  cbn [applyHeaders]. rewrite IH.
  destruct (strings.ToLower k =? "host")%string; reflexivity.
Qed.

Lemma buildRequest_URL eredes request token :
  http.URL (buildRequest eredes request token) = http.URL request.
Proof.
  unfold buildRequest. cbv zeta.
  destruct (negb (token =? "")%string); cbn [http.withHeader http.URL];
    apply applyHeaders_URL.
Qed.

(** Whatever [UsageURL] holds, the usage request goes to the built-in
    URL. *)
Lemma gatherUsages_posts_to_default env eredes token w c host :
  RunTestsOnly eredes = false ->
  client eredes = Some c ->
  url_Parse env eredesUsage = Ok host ->
  sent (snd (gatherUsages env eredes token w))
  = (sent w ++ [usageRequest env eredes token host (clockReads w)])%list
  /\ http.URL (usageRequest env eredes token host (clockReads w)) = eredesUsage.
Proof.
  intros Ht Hc Hu. split.
  - rewrite gatherUsages_sent by exact Ht.
    rewrite (makeRequest_sends _ _ _ _ _ _ c host Hc Hu). reflexivity.
  - unfold usageRequest. apply buildRequest_URL.
Qed.

(** Claim C4 on the code: with [UsageURL] set to
    "http://localhost:8080/usage" the one request [gatherUsages] sends
    goes to the built-in usage URL, not to the override. *)
Theorem usage_override_is_not_used :
  let env := exampleServer 200 "{}" in
  let eredes := examplePlugin env "http://localhost:8080/usage" "" [] false in
  UsageURL eredes = "http://localhost:8080/usage"
  /\ map http.URL (sent (snd (gatherUsages env eredes exampleToken world0)))
     = [eredesUsage]
  /\ eredesUsage <> "http://localhost:8080/usage".
Proof. vm_compute. repeat split; try reflexivity. discriminate. Qed.

Lemma Init_success_codes env eredes eredes' :
  Init env eredes = (eredes', None) -> SuccessStatusCodes eredes' = [200].
Proof.
  unfold Init. destruct (TLSConfig env (ClientConfig eredes)); [|discriminate].
  intros H. injection H as <-. reflexivity.
Qed.

Lemma responseHasSuccessCode_In statusCode codes :
  responseHasSuccessCode statusCode codes = true <-> In statusCode codes.
Proof.
  induction codes as [|c cs IH]; cbn.
  - split; [discriminate|contradiction].
  - destruct (Z.eqb_spec statusCode c) as [->|Hne].
    + split; auto.
    + rewrite IH. split; [auto|]. intros [E|H]; [congruence|exact H].
Qed.

(** The status check of [makeRequest], against whatever success codes
    the plugin holds when the request is made. *)
Lemma makeRequest_status env eredes url body token w c host resp :
  client eredes = Some c ->
  url_Parse env url = Ok host ->
  Do env c (sent w)
    (buildRequest eredes (http.mkRequest "POST" url host [] body) token)
  = Ok resp ->
  (In (http.StatusCode resp) (SuccessStatusCodes eredes) ->
     forall b, http.ReadAll resp = Ok b ->
     fst (makeRequest env eredes url body token w) = Returns (Ok b))
  /\ (~ In (http.StatusCode resp) (SuccessStatusCodes eredes) ->
      fst (makeRequest env eredes url body token w)
      = Returns (Err (statusError (http.StatusCode resp)
                        (SuccessStatusCodes eredes)))).
Proof.
  intros Hc Hu Hd. rewrite makeRequest_run, Hu, Hc. cbv zeta. rewrite Hd.
  split.
  - intros Hin b Hb. apply responseHasSuccessCode_In in Hin.
    rewrite Hin, Hb. reflexivity.
  - intros Hn.
    destruct (responseHasSuccessCode _ _) eqn:E; [|reflexivity].
    apply responseHasSuccessCode_In in E. contradiction.
Qed.

(** Claim C5 on the code: a plugin configured with the success codes
    200 and 204 holds only 200 once [Init] has run, and a response with
    status 204 is then an error. *)
Theorem configured_success_codes_are_overwritten :
  let env := exampleEnv 204 "{}" in
  let configured := exampleConfig "" "" [200; 204] false in
  let eredes := fst (Init env configured) in
  SuccessStatusCodes configured = [200; 204]
  /\ snd (Init env configured) = None
  /\ SuccessStatusCodes eredes = [200]
  /\ fst (makeRequest env eredes eredesSignIn "{}" "" world0)
     = Returns (Err "received status code 204 (No Content), expected any value out of [200]").
Proof. vm_compute. repeat split. Qed.

(* ================================================================== *)
(** ** Sign-in and the collection cycle *)
(* ================================================================== *)

(** Claim C7: when the sign-in request succeeds with body [b], [signIn]
    returns the string of [gjson.Get(b, "Body.Result.token")] without
    an error, and the empty string without an error when the document
    has no such path. *)
Theorem signIn_returns_token env eredes w c host resp b :
  RunTestsOnly eredes = false ->
  client eredes = Some c ->
  url_Parse env (signInURLOf eredes) = Ok host ->
  Do env c (sent w) (signInRequest eredes host) = Ok resp ->
  responseHasSuccessCode (http.StatusCode resp) (SuccessStatusCodes eredes)
  = true ->
  http.ReadAll resp = Ok b ->
  signIn env eredes w
  = (Returns (Ok (gjson.Result_String (gjson_Get env b "Body.Result.token"))),
     afterRequest w (signInRequest eredes host))
  /\ (gjson.Exists (gjson_Get env b "Body.Result.token") = false ->
      fst (signIn env eredes w) = Returns (Ok "")).
Proof.
  intros Ht Hc Hu Hd Hs Hb.
  assert (E : signIn env eredes w
              = (Returns (Ok (gjson.Result_String
                                (gjson_Get env b "Body.Result.token"))),
                 afterRequest w (signInRequest eredes host))).
  { rewrite signIn_run, Ht, makeRequest_run, Hu, Hc. cbv zeta.
    fold (signInRequest eredes host). rewrite Hd, Hs, Hb. reflexivity. }
  split; [exact E|].
  intros Hx. rewrite E. cbn [fst]. do 2 f_equal.
  unfold gjson.Exists, gjson.Result_String in *.
  destruct (gjson.Type__ _); [reflexivity|discriminate..].
Qed.

Lemma signIn_returns_token_witness :
  let env := exampleServer 200 "{}" in
  let eredes := examplePlugin env "" "" [] false in
  (RunTestsOnly eredes = false
   /\ url_Parse env (signInURLOf eredes) = Ok "online.e-redes.pt"
   /\ responseHasSuccessCode 200 (SuccessStatusCodes eredes) = true)
  /\ fst (signIn env eredes world0) = Returns (Ok exampleToken)
  /\ fst (signIn (exampleEnv 200 "{}") eredes world0) = Returns (Ok "").
Proof.
  intros env eredes.
  split; [repeat split|]. split.
  - exact (f_equal fst
             (proj1 (signIn_returns_token env eredes world0
                       (http.mkClient (tls.mkConfig exampleTLS)
                          (120 * time.Second))
                       "online.e-redes.pt"
                       (http.mkResponse 200 (Ok exampleSignInResponse))
                       exampleSignInResponse
                       eq_refl eq_refl eq_refl eq_refl eq_refl eq_refl))).
  - exact (proj2 (signIn_returns_token (exampleEnv 200 "{}") eredes world0
                    (http.mkClient (tls.mkConfig exampleTLS)
                       (120 * time.Second))
                    "online.e-redes.pt"
                    (http.mkResponse 200 (Ok "{}")) "{}"
                    eq_refl eq_refl eq_refl eq_refl eq_refl eq_refl)
                 eq_refl).
Defined.

(** No error leaves [Gather], initialised or not. *)
Lemma Gather_never_returns_error env eredes w e :
  fst (Gather env eredes w) <> Returns (Some e).
Proof.
  rewrite Gather_run.
  destruct (signIn env eredes w) as [[[token|e1]|] w1]; try discriminate.
  destruct (token =? "")%string; [discriminate|].
  destruct (gatherUsages env eredes token w1) as [[[e2|]|] w2]; discriminate.
Qed.

(** Claim C8: on an initialised plugin [Gather] returns nil; when
    sign-in fails, when the usage request fails or when parsing fails,
    the one call it adds to the accumulator is [AddError] with that
    error, so no metric is added. *)
Theorem Gather_reports_failures env eredes c p w :
  client eredes = Some c ->
  parser eredes = Some p ->
  fst (Gather env eredes w) = Returns None
  /\ (forall e w1,
        signIn env eredes w = (Returns (Err e), w1) ->
        acc (snd (Gather env eredes w))
        = (acc w ++ [telegraf.AddError ("[signIn]: " ++ e)%string])%list)
  /\ (forall token w1 e w2,
        RunTestsOnly eredes = false ->
        signIn env eredes w = (Returns (Ok token), w1) ->
        token <> "" ->
        makeRequest env eredes eredesUsage
          (usagesRequestBodyAt env eredes (clockReads w1)) token
          (afterClock w1) = (Returns (Err e), w2) ->
        acc (snd (Gather env eredes w))
        = (acc w ++ [telegraf.AddError ("Error in : " ++ e)%string])%list)
  /\ (forall token w1 response e w2,
        RunTestsOnly eredes = false ->
        signIn env eredes w = (Returns (Ok token), w1) ->
        token <> "" ->
        makeRequest env eredes eredesUsage
          (usagesRequestBodyAt env eredes (clockReads w1)) token
          (afterClock w1) = (Returns (Ok response), w2) ->
        p response = Err e ->
        acc (snd (Gather env eredes w))
        = (acc w ++ [telegraf.AddError ("Error in : " ++ e)%string])%list).
Proof.
  intros Hc Hp.
  assert (Hacc : forall r w1, signIn env eredes w = (r, w1) -> acc w1 = acc w).
  { intros r w1 E. pose proof (signIn_world env eredes w) as [Ha _].
    rewrite E in Ha. exact Ha. }
  assert (Hreq : forall token w1 r w2,
            makeRequest env eredes eredesUsage
              (usagesRequestBodyAt env eredes (clockReads w1)) token
              (afterClock w1) = (r, w2) -> acc w2 = acc w1).
  { intros token w1 r w2 E.
    pose proof (makeRequest_world env eredes eredesUsage
                  (usagesRequestBodyAt env eredes (clockReads w1)) token
                  (afterClock w1)) as (Ha & _).
    rewrite E in Ha. exact Ha. }
  split; [|split; [|split]].
  - rewrite Gather_run.
    pose proof (signIn_returns env eredes w c Hc) as Hs.
    destruct (signIn env eredes w) as [[[token|e]|] w1]; cbn [fst] in *;
      [|reflexivity|exfalso; apply Hs; reflexivity].
    destruct (token =? "")%string; [reflexivity|].
    pose proof (gatherUsages_returns env eredes token w1 c p Hc Hp) as Hg.
    destruct (gatherUsages env eredes token w1) as [[[e|]|] w2]; cbn [fst] in *;
      [reflexivity|reflexivity|exfalso; apply Hg; reflexivity].
  - intros e w1 E. rewrite Gather_run, E. cbn [snd afterCalls acc].
    rewrite (Hacc _ _ E). reflexivity.
  - intros token w1 e w2 Ht E Hne Em.
    rewrite Gather_run, E.
    destruct (String.eqb_spec token "") as [->|_]; [contradiction|].
    rewrite gatherUsages_run, Ht, Em. cbn [snd afterCalls acc].
    rewrite (Hreq _ _ _ _ Em), (Hacc _ _ E). reflexivity.
  - intros token w1 response e w2 Ht E Hne Em Ep.
    rewrite Gather_run, E.
    destruct (String.eqb_spec token "") as [->|_]; [contradiction|].
    rewrite gatherUsages_run, Ht, Em, Hp, Ep. cbn [snd afterCalls acc].
    rewrite (Hreq _ _ _ _ Em), (Hacc _ _ E). reflexivity.
Qed.

Lemma Gather_reports_failures_witness :
  let env := exampleEnv 500 "{}" in
  let eredes := examplePlugin env "" "" [] false in
  client eredes
  = Some (http.mkClient (tls.mkConfig exampleTLS) (120 * time.Second))
  /\ parser eredes = Some exampleParser
  /\ fst (Gather env eredes world0) = Returns None
  /\ acc (snd (Gather env eredes world0))
     = [telegraf.AddError
          "[signIn]: received status code 500 (Internal Server Error), expected any value out of [200]"].
Proof.
  intros env eredes.
  pose proof (Gather_reports_failures env eredes
                (http.mkClient (tls.mkConfig exampleTLS) (120 * time.Second))
                exampleParser world0 eq_refl eq_refl) as (H1 & H2 & _).
  split; [reflexivity|]. split; [reflexivity|]. split; [exact H1|].
  exact (H2 _ _ eq_refl).
Defined.

(** Claim C9: with [RunTestsOnly] set, [signIn] returns
    "TOKEN1234567890" and leaves the world as it was (no request is
    sent), [gatherUsages] only reads the clock, and [Gather] returns nil
    having sent nothing and added nothing to the accumulator. *)
Theorem tests_only_cycle env eredes w :
  RunTestsOnly eredes = true ->
  signIn env eredes w = (Returns (Ok "TOKEN1234567890"), w)
  /\ (forall token w1,
        gatherUsages env eredes token w1 = (Returns None, afterClock w1))
  /\ Gather env eredes w = (Returns None, afterClock w)
  /\ sent (snd (Gather env eredes w)) = sent w
  /\ acc (snd (Gather env eredes w)) = acc w.
Proof.
  intros Ht.
  assert (Es : signIn env eredes w = (Returns (Ok "TOKEN1234567890"), w))
    by (rewrite signIn_run, Ht; reflexivity).
  assert (Eg : forall token w1,
             gatherUsages env eredes token w1 = (Returns None, afterClock w1))
    by (intros; rewrite gatherUsages_run, Ht; reflexivity).
  assert (EG : Gather env eredes w = (Returns None, afterClock w)).
  { rewrite Gather_run, Es.
    change ("TOKEN1234567890" =? "")%string with false. cbv iota.
    rewrite Eg. reflexivity. }
  repeat split; try assumption; rewrite EG; reflexivity.
Qed.

Lemma tests_only_cycle_witness :
  let env := exampleOffline in
  let eredes := exampleConfig "" "" [] true in
  RunTestsOnly eredes = true
  /\ Gather env eredes world0 = (Returns None, mkWorld [] 2 []).
Proof.
  intros env eredes. split; [reflexivity|].
  exact (proj1 (proj2 (proj2 (tests_only_cycle env eredes world0 eq_refl)))).
Defined.

(** Claim C10: when [signIn] returns the empty token without an error,
    [Gather] returns nil in the world [signIn] left: the sign-in request
    is the only request sent, the clock is not read, and nothing is
    added to the accumulator. *)
Theorem empty_token_skips_usage env eredes w w1 :
  signIn env eredes w = (Returns (Ok ""), w1) ->
  Gather env eredes w = (Returns None, w1)
  /\ acc w1 = acc w
  /\ clockReads w1 = clockReads w
  /\ exists host, w1 = afterRequest w (signInRequest eredes host).
Proof.
  intros E.
  pose proof (signIn_world env eredes w) as [Ha Hk]. rewrite E in Ha, Hk.
  split; [|split; [exact Ha|split; [exact Hk|]]].
  - rewrite Gather_run, E. reflexivity.
  - rewrite signIn_run in E.
    destruct (RunTestsOnly eredes); [discriminate|].
    destruct (makeRequest _ _ _ _ _ w) as [[[b|e]|] w'] eqn:Em;
      try discriminate.
    injection E as _ <-.
    apply makeRequest_ok in Em as (c & host & resp & _ & _ & _ & _ & _ & Ew).
    exists host. exact Ew.
Qed.

Lemma empty_token_skips_usage_witness :
  let env := exampleEnv 200 "{}" in
  let eredes := examplePlugin env "" "" [] false in
  signIn env eredes world0
  = (Returns (Ok ""), afterRequest world0 (signInRequest eredes "online.e-redes.pt"))
  /\ Gather env eredes world0
     = (Returns None, afterRequest world0 (signInRequest eredes "online.e-redes.pt")).
Proof.
  intros env eredes. split; [reflexivity|].
  exact (proj1 (empty_token_skips_usage env eredes world0 _ eq_refl)).
Defined.

(* ================================================================== *)
(** ** The headers of a request *)
(* ================================================================== *)

Lemma lookupValues_addValue_other key key' value h :
  key <> key' ->
  http.lookupValues key' (http.addValue key value h) = http.lookupValues key' h.
Proof.
  intros Hne. induction h as [|[k vs] r IH]; cbn.
  - destruct (String.eqb_spec key key'); [contradiction|reflexivity].
  - destruct (String.eqb_spec k key) as [->|Hk]; cbn.
    + destruct (String.eqb_spec key key'); [contradiction|reflexivity].
    + rewrite IH. reflexivity.
Qed.

Lemma lookupValues_setValue_other key key' value h :
  key <> key' ->
  http.lookupValues key' (http.setValue key value h) = http.lookupValues key' h.
Proof.
  intros Hne. induction h as [|[k vs] r IH]; cbn.
  - destruct (String.eqb_spec key key'); [contradiction|reflexivity].
  - destruct (String.eqb_spec k key) as [->|Hk]; cbn.
    + destruct (String.eqb_spec key key'); [contradiction|reflexivity].
    + rewrite IH. reflexivity.
Qed.

Lemma lookupValues_setValue_same key value h :
  http.lookupValues key (http.setValue key value h) = [value].
Proof.
  induction h as [|[k vs] r IH]; cbn.
  - rewrite String.eqb_refl. reflexivity.
  - destruct (String.eqb_spec k key) as [->|Hk]; cbn.
    + rewrite String.eqb_refl. reflexivity.
    + destruct (String.eqb_spec k key); [contradiction|exact IH].
Qed.

Lemma upperByte_H c :
  strings.upperByte c = "H"%char -> strings.lowerByte c = "h"%char.
Proof.
  destruct c as [[] [] [] [] [] [] [] []]; vm_compute;
    intros H; solve [reflexivity | discriminate H].
Qed.

Lemma canonical_nil upper s : http.canonical upper s = "" -> s = "".
Proof. destruct s; [reflexivity|discriminate]. Qed.

(** Only the spellings of "host" have "Host" as their canonical key. *)
Lemma canonical_key_Host k :
  http.CanonicalMIMEHeaderKey k = "Host" -> strings.ToLower k = "host".
Proof.
  unfold http.CanonicalMIMEHeaderKey.
  destruct (http.allToken k) eqn:Ht.
  - intros H.
    destruct k as [|c1 k]; [discriminate H|].
    cbn [http.canonical] in H. injection H as H1 H.
    rewrite H1 in H. cbn [Ascii.eqb Bool.eqb] in H.
    destruct k as [|c2 k]; [discriminate H|].
    cbn [http.canonical] in H. injection H as H2 H.
    rewrite H2 in H. cbn [Ascii.eqb Bool.eqb] in H.
    destruct k as [|c3 k]; [discriminate H|].
    cbn [http.canonical] in H. injection H as H3 H.
    rewrite H3 in H. cbn [Ascii.eqb Bool.eqb] in H.
    destruct k as [|c4 k]; [discriminate H|].
    cbn [http.canonical] in H. injection H as H4 H.
    apply canonical_nil in H. subst k.
    cbn [strings.ToLower].
    rewrite (upperByte_H _ H1), H2, H3, H4. reflexivity.
  - intros ->. discriminate Ht.
Qed.

Lemma applyHeaders_Host_values headers :
  forall request,
    http.Header_Values (http.Header_ (applyHeaders headers request)) "Host"
    = http.Header_Values (http.Header_ request) "Host".
Proof.
  induction headers as [|[k v] hs IH]; intros r; [reflexivity|].
  cbn [applyHeaders]. rewrite IH.
  destruct (String.eqb_spec (strings.ToLower k) "host") as [E|Hne];
    [reflexivity|].
  cbn [http.withHeader http.Header_]. unfold http.Header_Values, http.Header_Add.
  apply lookupValues_addValue_other.
  intros Hk. apply Hne, canonical_key_Host. exact Hk.
Qed.

Lemma applyHeaders_Host headers :
  forall request,
    http.Host (applyHeaders headers request)
    = match lastHost headers with
      | Some v => v
      | None => http.Host request
      end.
Proof.
  induction headers as [|[k v] hs IH]; intros r; [reflexivity|].
  cbn [applyHeaders lastHost]. rewrite IH.
  destruct (lastHost hs); [reflexivity|].
  destruct (strings.ToLower k =? "host")%string; reflexivity.
Qed.

Lemma buildRequest_fields eredes request token :
  http.Method (buildRequest eredes request token) = http.Method request
  /\ http.Body (buildRequest eredes request token) = http.Body request
  /\ http.Host (buildRequest eredes request token)
     = http.Host (applyHeaders (Headers eredes) request).
Proof.
  assert (A : forall hs r,
             http.Method (applyHeaders hs r) = http.Method r
             /\ http.Body (applyHeaders hs r) = http.Body r).
  { induction hs as [|[k v] hs IH]; intros r; [split; reflexivity|].
    cbn [applyHeaders]. destruct (IH (if (strings.ToLower k =? "host")%string
         then http.withHost r v
         else http.withHeader r (http.Header_Add (http.Header_ r) k v)))
      as [Hm Hb].
    rewrite Hm, Hb.
    destruct (strings.ToLower k =? "host")%string; split; reflexivity. }
  unfold buildRequest. cbv zeta.
  destruct (negb (token =? "")%string);
    cbn [http.withHeader http.Method http.Body http.Host];
    destruct (A (Headers eredes) request) as [Hm Hb]; auto.
Qed.

(** A "host" entry of the configured headers, in any letter case, sets
    the host of the request and never becomes a header: the last such
    entry gives the host, without one the host is that of the URL, and
    the request has no values under "Host". *)
Theorem host_header_sets_request_host eredes method url host body token :
  let request :=
    buildRequest eredes (http.mkRequest method url host [] body) token in
  http.Host request
  = match lastHost (Headers eredes) with
    | Some v => v
    | None => host
    end
  /\ http.Header_Values (http.Header_ request) "Host" = [].
Proof.
  cbv zeta. split.
  - destruct (buildRequest_fields eredes
                (http.mkRequest method url host [] body) token)
      as (_ & _ & Hh).
    rewrite Hh, applyHeaders_Host. reflexivity.
  - unfold buildRequest. cbv zeta.
    set (r0 := applyHeaders _ _).
    assert (H0 : http.Header_Values (http.Header_ r0) "Host" = [])
      by (unfold r0; rewrite applyHeaders_Host_values; reflexivity).
    unfold http.Header_Values, http.Header_Set in *.
    destruct (negb (token =? "")%string);
      cbn [http.withHeader http.Header_];
      rewrite !lookupValues_setValue_other by (vm_compute; discriminate);
      exact H0.
Qed.

Lemma buildRequest_header_values eredes request token :
  let built := buildRequest eredes request token in
  http.Header_Values (http.Header_ built) "Content-Type" = ["application/json"]
  /\ http.Header_Values (http.Header_ built) "User-Agent" = [userAgent]
  /\ (token <> "" ->
      http.Header_Values (http.Header_ built) "Authorization"
      = ["Bearer " ++ strings.Trim token newline]).
Proof.
  cbv zeta. unfold buildRequest. cbv zeta.
  set (r0 := applyHeaders _ _).
  unfold http.Header_Values, http.Header_Set.
  change (http.CanonicalMIMEHeaderKey "Content-Type") with "Content-Type".
  change (http.CanonicalMIMEHeaderKey "User-Agent") with "User-Agent".
  change (http.CanonicalMIMEHeaderKey "Authorization") with "Authorization".
  repeat split.
  - cbn [http.withHeader http.Header_].
    rewrite lookupValues_setValue_other by discriminate.
    apply lookupValues_setValue_same.
  - cbn [http.withHeader http.Header_].
    apply lookupValues_setValue_same.
  - intros Hne. destruct (String.eqb_spec token "") as [E|_]; [contradiction|].
    cbn [negb http.withHeader http.Header_].
    rewrite !lookupValues_setValue_other by discriminate.
    apply lookupValues_setValue_same.
Qed.

(** Configured headers cannot replace the headers the plugin sets:
    every request has the content type "application/json" and the fixed
    user agent, and with a non-empty token its only "Authorization"
    value is "Bearer " followed by the token without the line feeds
    around it. *)
Theorem fixed_headers_win eredes request token :
  let built := buildRequest eredes request token in
  http.Header_Values (http.Header_ built) "Content-Type" = ["application/json"]
  /\ http.Header_Values (http.Header_ built) "User-Agent" = [userAgent]
  /\ (token <> "" ->
      http.Header_Values (http.Header_ built) "Authorization"
      = ["Bearer " ++ strings.Trim token newline]).
Proof. exact (buildRequest_header_values eredes request token). Qed.

Lemma fixed_headers_win_witness :
  let eredes :=
    mkEREDES [("content-type", "text/plain"); ("Authorization", "Basic Zm9v")]
      "" "" "user" "secret" "PT0002" exampleTLS [200] 0 0 "" false None None in
  let built :=
    buildRequest eredes (http.mkRequest "POST" eredesUsage "h" [] "{}")
      ("abc" ++ newline) in
  ("abc" ++ newline <> "")
  /\ http.Header_Values (http.Header_ built) "Content-Type"
     = ["application/json"]
  /\ http.Header_Values (http.Header_ built) "Authorization" = ["Bearer abc"].
Proof.
  intros eredes built.
  assert (Hne : "abc" ++ newline <> "") by discriminate.
  destruct (fixed_headers_win eredes
              (http.mkRequest "POST" eredesUsage "h" [] "{}")
              ("abc" ++ newline)) as (Hc & _ & Ha).
  split; [exact Hne|]. split; [exact Hc|]. exact (Ha Hne).
Defined.

(* ================================================================== *)
(** ** Requests on the wire *)
(* ================================================================== *)

Lemma makeRequest_status_witness :
  let env := exampleEnv 404 "{}" in
  let eredes := examplePlugin env "" "" [] false in
  let c := http.mkClient (tls.mkConfig exampleTLS) (120 * time.Second) in
  (client eredes = Some c /\ ~ In 404 (SuccessStatusCodes eredes))
  /\ fst (makeRequest env eredes eredesSignIn "{}" "" world0)
     = Returns (Err "received status code 404 (Not Found), expected any value out of [200]").
Proof.
  intros env eredes c.
  assert (Hn : ~ In 404 (SuccessStatusCodes eredes)).
  { cbn. intros [H|[]]. discriminate H. }
  split; [split; [reflexivity|exact Hn]|].
  exact (proj2 (makeRequest_status env eredes eredesSignIn "{}" "" world0 c
                  "online.e-redes.pt" (http.mkResponse 404 (Ok "{}"))
                  eq_refl eq_refl eq_refl) Hn).
Defined.

(** [makeRequest] never touches the accumulator or the clock.  It sends
    nothing when the URL does not parse, and otherwise at most one
    request: a POST to the URL it was given with the body it was
    given. *)
Theorem makeRequest_footprint env eredes url body token w :
  let w' := snd (makeRequest env eredes url body token w) in
  acc w' = acc w
  /\ clockReads w' = clockReads w
  /\ (forall e, url_Parse env url = Err e ->
        makeRequest env eredes url body token w = (Returns (Err e), w))
  /\ (w' = w
      \/ exists request,
           w' = afterRequest w request
           /\ http.Method request = "POST"
           /\ http.URL request = url
           /\ http.Body request = body).
Proof.
  cbv zeta.
  destruct (makeRequest_world env eredes url body token w) as (Ha & Hc & Hs).
  split; [exact Ha|]. split; [exact Hc|]. split.
  - intros e He. rewrite makeRequest_run, He. reflexivity.
  - rewrite makeRequest_run in *.
    destruct (url_Parse env url) as [host|e]; [|left; reflexivity].
    destruct (client eredes) as [c|]; [|left; reflexivity].
    right.
    exists (buildRequest eredes (http.mkRequest "POST" url host [] body) token).
    destruct (buildRequest_fields eredes
                (http.mkRequest "POST" url host [] body) token)
      as (Hm & Hb & _).
    rewrite buildRequest_URL, Hm, Hb.
    split; [|repeat split].
    cbv zeta.
    destruct (Do env c (sent w) _) as [resp|e]; [|reflexivity].
    destruct (responseHasSuccessCode _ _); [|reflexivity].
    destruct (http.ReadAll resp); reflexivity.
Qed.

(** Outside test mode, on a plugin with a client, [signIn] sends one
    POST with the credentials to the configured sign-in URL, or to the
    built-in one when none is configured. *)
Theorem signIn_posts_credentials env eredes w c host :
  RunTestsOnly eredes = false ->
  client eredes = Some c ->
  url_Parse env (signInURLOf eredes) = Ok host ->
  snd (signIn env eredes w) = afterRequest w (signInRequest eredes host)
  /\ http.Method (signInRequest eredes host) = "POST"
  /\ http.URL (signInRequest eredes host)
     = (if (SignInURL eredes =? "")%string then eredesSignIn
        else SignInURL eredes)
  /\ http.Body (signInRequest eredes host)
     = signInBody (Password eredes) (Username eredes).
Proof.
  intros Ht Hc Hu.
  destruct (buildRequest_fields eredes
              (http.mkRequest "POST" (signInURLOf eredes) host []
                 (signInBody (Password eredes) (Username eredes))) "")
    as (Hm & Hb & _).
  repeat split.
  - rewrite signIn_run, Ht.
    pose proof (makeRequest_sends env eredes (signInURLOf eredes)
                  (signInBody (Password eredes) (Username eredes)) "" w
                  c host Hc Hu) as Hs.
    fold (signInRequest eredes host) in Hs.
    destruct (makeRequest _ _ _ _ _ w) as [[[b|e]|] w']; exact Hs.
  - exact Hm.
  - unfold signInRequest. rewrite buildRequest_URL. reflexivity.
  - exact Hb.
Qed.

Lemma signIn_posts_credentials_witness :
  let env := exampleOffline in
  let eredes :=
    mkEREDES [] "https://example.org/signin" "" "user" "secret" "PT0002"
      exampleTLS [200] 0 0 "" false
      (Some (http.mkClient (tls.mkConfig exampleTLS) 0)) None in
  RunTestsOnly eredes = false
  /\ map http.URL (sent (snd (signIn env eredes world0)))
     = ["https://example.org/signin"].
Proof.
  intros env eredes. split; [reflexivity|].
  rewrite (proj1 (signIn_posts_credentials env eredes world0
                    (http.mkClient (tls.mkConfig exampleTLS) 0)
                    "online.e-redes.pt" eq_refl eq_refl eq_refl)).
  reflexivity.
Defined.

(** Outside test mode, on a plugin with a client, [gatherUsages] sends
    one POST whose body holds the configured [cpe], the start computed
    at its first clock reading and the end computed at its second
    one, and whose only "Authorization" value is the bearer token. *)
Theorem usage_request_content env eredes token w c host :
  RunTestsOnly eredes = false ->
  client eredes = Some c ->
  url_Parse env eredesUsage = Ok host ->
  token <> "" ->
  let n := clockReads w in
  let request := usageRequest env eredes token host n in
  sent (snd (gatherUsages env eredes token w)) = (sent w ++ [request])%list
  /\ clockReads (snd (gatherUsages env eredes token w)) = S (S n)
  /\ http.Method request = "POST"
  /\ http.Body request
     = usagesBody (Cpe eredes)
         (windowStart (StartDate eredes) (HistoryInterval eredes) (Now env n))
         (windowEnd (Now env (S n)))
  /\ http.Header_Values (http.Header_ request) "Authorization"
     = ["Bearer " ++ strings.Trim token newline].
Proof.
  intros Ht Hc Hu Hne. cbv zeta.
  destruct (gatherUsages_posts_to_default env eredes token w c host Ht Hc Hu)
    as [Hs _].
  destruct (buildRequest_fields eredes
              (http.mkRequest "POST" eredesUsage host []
                 (usagesRequestBodyAt env eredes (clockReads w))) token)
    as (Hm & Hb & _).
  split; [exact Hs|]. split; [|split; [exact Hm|split; [exact Hb|]]].
  - rewrite gatherUsages_run, Ht.
    destruct (makeRequest_world env eredes eredesUsage
                (usagesRequestBodyAt env eredes (clockReads w)) token
                (afterClock w)) as (_ & Hk & _).
    destruct (makeRequest _ _ _ _ _ _) as [[[b|e]|] w']; cbn [snd] in *;
      try exact Hk.
    destruct (parser eredes) as [p|]; [|exact Hk].
    destruct (p b); exact Hk.
  - exact (proj2 (proj2 (buildRequest_header_values eredes _ token)) Hne).
Qed.

Lemma usage_request_content_witness :
  let env := exampleServer 200 "{}" in
  let eredes := examplePlugin env "" "" [] false in
  (RunTestsOnly eredes = false /\ exampleToken <> "")
  /\ map http.Body (sent (snd (gatherUsages env eredes exampleToken world0)))
     = [usagesBody "PT0002000012345678XX" "2021-01-02 23:59:59"
          "2021-01-09 23:59:59"].
Proof.
  intros env eredes.
  assert (Hne : exampleToken <> "") by discriminate.
  split; [split; [reflexivity|exact Hne]|].
  rewrite (proj1 (usage_request_content env eredes exampleToken world0
                    (http.mkClient (tls.mkConfig exampleTLS)
                       (120 * time.Second))
                    "online.e-redes.pt" eq_refl eq_refl eq_refl Hne)).
  vm_compute. reflexivity.
Defined.

(* ================================================================== *)
(** ** The collection cycle *)
(* ================================================================== *)

(** When sign-in gives a token, the usage request succeeds and the
    parser accepts the payload, [Gather] hands every parsed metric to
    the accumulator, in the order the parser gave them, adds no error
    and returns nil. *)
Theorem Gather_emits_parsed_metrics env eredes p w token w1 response w2
    metrics :
  RunTestsOnly eredes = false ->
  parser eredes = Some p ->
  signIn env eredes w = (Returns (Ok token), w1) ->
  token <> "" ->
  makeRequest env eredes eredesUsage
    (usagesRequestBodyAt env eredes (clockReads w1)) token (afterClock w1)
  = (Returns (Ok response), w2) ->
  p response = Ok metrics ->
  Gather env eredes w = (Returns None, afterCalls w2 (map addFieldsOf metrics))
  /\ acc (snd (Gather env eredes w))
     = (acc w ++ map addFieldsOf metrics)%list.
Proof.
  intros Ht Hp Es Hne Em Ep.
  assert (EG : Gather env eredes w
               = (Returns None, afterCalls w2 (map addFieldsOf metrics))).
  { rewrite Gather_run, Es.
    destruct (String.eqb_spec token "") as [E|_]; [contradiction|].
    rewrite gatherUsages_run, Ht, Em, Hp, Ep. reflexivity. }
  split; [exact EG|].
  rewrite EG. cbn [snd afterCalls acc].
  destruct (signIn_world env eredes w) as [Ha _]. rewrite Es in Ha.
  destruct (makeRequest_world env eredes eredesUsage
              (usagesRequestBodyAt env eredes (clockReads w1)) token
              (afterClock w1)) as (Hb & _).
  rewrite Em in Hb. cbn [snd afterClock acc] in *.
  rewrite Hb, Ha. reflexivity.
Qed.

Lemma Gather_emits_parsed_metrics_witness :
  let env := exampleServer 200 "{}" in
  let eredes := examplePlugin env "" "" [] false in
  (RunTestsOnly eredes = false /\ parser eredes = Some exampleParser)
  /\ acc (snd (Gather env eredes world0)) = [addFieldsOf exampleMetric].
Proof.
  intros env eredes. split; [split; reflexivity|].
  assert (Hne : exampleToken <> "") by discriminate.
  exact (proj2 (Gather_emits_parsed_metrics env eredes exampleParser world0
                  exampleToken _ "{}" _ [exampleMetric]
                  eq_refl eq_refl eq_refl Hne eq_refl eq_refl)).
Defined.

(** In one cycle [Gather] sends nothing, or the sign-in request alone,
    or the sign-in request followed by one usage request: never a usage
    request without a sign-in before it, never more than two
    requests. *)
Theorem Gather_request_sequence env eredes w :
  exists l,
    sent (snd (Gather env eredes w)) = (sent w ++ l)%list
    /\ (l = []
        \/ (exists host, l = [signInRequest eredes host])
        \/ (exists host host' token,
              l = [signInRequest eredes host;
                   usageRequest env eredes token host' (clockReads w)])).
Proof.
  rewrite Gather_run, signIn_run.
  destruct (RunTestsOnly eredes) eqn:Ht.
  - change ("TOKEN1234567890" =? "")%string with false. cbv iota.
    rewrite gatherUsages_run, Ht. exists []. split; [|left; reflexivity].
    cbn. rewrite app_nil_r. reflexivity.
  - destruct (makeRequest_world env eredes (signInURLOf eredes)
                (signInBody (Password eredes) (Username eredes)) "" w)
      as (_ & Hk & Hs).
    destruct (makeRequest env eredes (signInURLOf eredes) _ "" w)
      as [[[b|e]|] w1] eqn:Em; cbn [snd] in *.
    + apply makeRequest_ok in Em as (c & host & resp & _ & _ & _ & _ & _ & Ew).
      fold (signInRequest eredes host) in Ew.
      set (token := gjson.Result_String _).
      destruct (token =? "")%string.
      { exists [signInRequest eredes host]. subst w1.
        split; [reflexivity|]. right. left. exists host. reflexivity. }
      rewrite gatherUsages_run, Ht.
      destruct (makeRequest_world env eredes eredesUsage
                  (usagesRequestBodyAt env eredes (clockReads w1)) token
                  (afterClock w1)) as (_ & _ & Hu).
      assert (G : forall o : outcome (option error) * World,
                sent (snd o)
                = sent (snd (makeRequest env eredes eredesUsage
                               (usagesRequestBodyAt env eredes (clockReads w1))
                               token (afterClock w1))) ->
                exists l,
                  sent (snd o) = (sent w ++ l)%list
                  /\ (l = []
                      \/ (exists host, l = [signInRequest eredes host])
                      \/ (exists host host' token,
                            l = [signInRequest eredes host;
                                 usageRequest env eredes token host'
                                   (clockReads w)]))).
      { intros o ->. destruct Hu as [Hu|(host' & _ & Hu)]; rewrite Hu.
        - exists [signInRequest eredes host]. subst w1.
          split; [reflexivity|]. right. left. exists host. reflexivity.
        - exists [signInRequest eredes host;
                  usageRequest env eredes token host' (clockReads w)].
          split; [|right; right; exists host, host', token; reflexivity].
          subst w1. cbn [afterRequest afterClock sent clockReads].
          rewrite <- app_assoc. reflexivity. }
      destruct (makeRequest env eredes eredesUsage _ token (afterClock w1))
        as [[[b'|e']|] w2]; cbn [snd] in *.
      * destruct (parser eredes) as [p|]; [|apply (G (Panics, w2)); reflexivity].
        destruct (p b') as [ms|e'].
        -- apply (G (Returns None, afterCalls w2 (map addFieldsOf ms))).
           reflexivity.
        -- apply (G (Returns None,
                     afterCalls w2
                       [telegraf.AddError ("Error in : " ++ e')%string])).
           reflexivity.
      * apply (G (Returns None,
                  afterCalls w2
                    [telegraf.AddError ("Error in : " ++ e')%string])).
        reflexivity.
      * apply (G (Panics, w2)). reflexivity.
    + destruct Hs as [Hs|(host & _ & Hs)].
      * exists []. cbn. rewrite Hs, app_nil_r. split; [reflexivity|left; reflexivity].
      * exists [signInRequest eredes host]. rewrite Hs.
        split; [reflexivity|]. right. left. exists host. reflexivity.
    + destruct Hs as [Hs|(host & _ & Hs)].
      * exists []. cbn. rewrite Hs, app_nil_r. split; [reflexivity|left; reflexivity].
      * exists [signInRequest eredes host]. rewrite Hs.
        split; [reflexivity|]. right. left. exists host. reflexivity.
Qed.

(** [Init] and [SetParser] can run in either order. *)
Theorem Init_SetParser_commute env eredes p :
  Init env (SetParser eredes p)
  = (SetParser (fst (Init env eredes)) p, snd (Init env eredes)).
Proof.
  unfold Init. cbn [SetParser ClientConfig].
  destruct (TLSConfig env (ClientConfig eredes)); reflexivity.
Qed.

(* ================================================================== *)
(** ** More on the request window *)
(* ================================================================== *)





(** Between fixed zones the window depends on the wall clock that
    [now] shows, not on the offset of the zone. *)
Theorem window_depends_on_wall_clock StartDate hi now1 now2 :
  sameWall now1 now2 ->
  window StartDate hi now1 = window StartDate hi now2.
Proof.
  intros W. pose proof W as (o1 & o2 & L1 & L2 & _).
  assert (D : time.absDay now1 = time.absDay now2)
    by (unfold time.absDay; rewrite (sameWall_abs _ _ W); reflexivity).
  assert (S1 : offsetSteady now1 o1 86400) by (left; exact L1).
  assert (S2 : offsetSteady now2 o2 86400) by (left; exact L2).
  unfold window. f_equal.
  - destruct (String.eqb_spec StartDate "") as [->|Hne].
    + destruct (Z.lt_ge_cases hi twentyFourHours) as [Hlt|Hge].
      * rewrite (windowStart_short now1 hi o1 Hlt S1),
          (windowStart_short now2 hi o2 Hlt S2), D. reflexivity.
      * rewrite (windowStart_long now1 hi o1
                   (time.Unix (time.Add now1 (- hi)) - 86400 - Z.abs o1)
                   (time.Unix (time.Add now1 (- hi)) + Z.abs o1 + 1) Hge)
          by (try (left; exact L1); lia).
        rewrite (windowStart_long now2 hi o2
                   (time.Unix (time.Add now2 (- hi)) - 86400 - Z.abs o2)
                   (time.Unix (time.Add now2 (- hi)) + Z.abs o2 + 1) Hge)
          by (try (left; exact L2); lia).
        unfold time.absDay.
        rewrite (sameWall_abs _ _ (sameWall_Add _ _ (- hi) W)). reflexivity.
    + unfold windowStart.
      destruct (String.eqb_spec StartDate ""); [contradiction|reflexivity].
  - rewrite (windowEnd_previous_day now1 o1 S1),
      (windowEnd_previous_day now2 o2 S2), D. reflexivity.
Qed.

Lemma window_depends_on_wall_clock_witness :
  let utc := noon_2021_01_10 time.UTC in
  let cet :=
    time.mkTime (time.unixNano utc - 3600 * 1000000000) (time.FixedZone 3600) in
  sameWall cet utc
  /\ window "" (168 * time.Hour) cet
     = ("2021-01-02 23:59:59", "2021-01-09 23:59:59").
Proof.
  intros utc cet.
  assert (W : sameWall cet utc).
  { exists 3600, 0. repeat split. }
  split; [exact W|].
  rewrite (window_depends_on_wall_clock "" (168 * time.Hour) cet utc W).
  vm_compute. reflexivity.
Defined.



(** With clock readings either side of midnight the same interval gives
    a [start] one day before [end]: this is what [gatherUsages] sends
    when the day changes between its two readings. *)
Lemma short_interval_across_midnight :
  let now1 := time.Date 2021 1 10 23 59 59 999999999 time.UTC in
  let now2 := time.Date 2021 1 11 0 0 0 1 time.UTC in
  windowStart "" 0 now1 = "2021-01-09 23:59:59"
  /\ windowEnd now2 = "2021-01-10 23:59:59".
Proof. vm_compute. split; reflexivity. Qed.

Lemma Format_ext t1 t2 :
  time.Unix t1 = time.Unix t2 -> time.loc t1 = time.loc t2 ->
  time.Format t1 = time.Format t2.
Proof.
  intros U L.
  assert (A : time.abs t1 = time.abs t2)
    by (unfold time.abs; rewrite U, L; reflexivity).
  unfold time.Format, time.Year, time.Month, time.Day, time.Hour_,
    time.Minute_, time.Second_, time.absDay.
  rewrite A. reflexivity.
Qed.

Lemma Date_nanoseconds year month day nsec l :
  0 <= nsec < 1000000000 ->
  time.Unix (time.Date year month day 23 59 59 nsec l)
  = time.Unix (time.Date year month day 23 59 59 0 l).
Proof.
  intros Hns. unfold time.Date.
  destruct (time.norm year (month - 1) 12) as [y m].
  rewrite (norm_in_range 59 nsec _) by lia.
  rewrite (norm_in_range 59 0 _) by lia.
  rewrite (norm_in_range 59 59 60), (norm_in_range 23 59 60),
    (norm_in_range day 23 24) by lia.
  cbv zeta. unfold time.Unix. cbn [time.unixNano].
  rewrite !Z.div_add_l by lia.
  rewrite (Z.div_small nsec) by lia. reflexivity.
Qed.

(** The 59 that [gatherUsages] passes as nanoseconds of [endDate] does
    not show: in every location [end] is the text of the same instant
    built with zero nanoseconds. *)
Theorem end_nanoseconds_do_not_show now :
  windowEnd now
  = let endDate := time.Add now (- twentyFourHours) in
    time.Format
      (time.Date (time.Year endDate) (time.Month endDate) (time.Day endDate)
         23 59 59 0 (time.loc endDate)).
Proof.
  unfold windowEnd, windowEndDate. cbv zeta.
  apply Format_ext.
  - apply Date_nanoseconds. lia.
  - rewrite !Date_loc. reflexivity.
Qed.



